(** * Axiom Trade filter: a shallow embedding of the decode / filter /
      re-encode pipeline and its statistics, with the properties of the
      specification stated and settled against it.

    Source files embedded here: [models.py] (record decoders),
    [config.py] (the filter configuration), [filters.py] (the keep/drop
    policy and the counters) and [axiom_filter.py] (the dispatch hooks). *)

From Stdlib Require Import ZArith Ascii String Floats.SpecFloat.
From stdpp Require Import gmap strings list pretty.

Open Scope string_scope.
Open Scope nat_scope.

(** ** Python values

    Every value the pipeline handles comes out of [json.loads]: null,
    booleans, integers, floats, strings, lists and string-keyed objects.
    A [str] is modelled by [string], one [ascii] per character (code
    points below 256); a [dict] by its items in insertion order, looked
    up by first match. *)

#[warnings="-register-all"]
Inductive pyval : Type :=
| PNone
| PBool (b : bool)
| PInt (z : Z)
| PFloat (f : spec_float)
| PStr (s : string)
| PList (l : list pyval)
| PDict (d : list (string * pyval)).

(** The exceptions the embedded code can raise. *)
Inductive exn : Type :=
| TypeError
| AttributeError
| KeyError
| IndexError
| JSONDecodeError.

Inductive result (A : Type) : Type :=
| Ok (a : A)
| Raise (e : exn).
Arguments Ok {A} a.
Arguments Raise {A} e.

Global Instance result_bind : MBind result := λ A B k m,
  match m with
  | Ok a => k a
  | Raise e => Raise e
  end.

Global Instance result_ret : MRet result := λ A a, Ok a.

Definition returns {A} (m : result A) : Prop := ∃ a, m = Ok a.
Definition raises {A} (m : result A) : Prop := ∃ e, m = Raise e.

(** *** Built-in operations *)

(** [bool(v)]. *)
Definition truthy (v : pyval) : bool :=
  match v with
  | PNone => false
  | PBool b => b
  | PInt z => negb (z =? 0)%Z
  | PFloat (S754_zero _) => false
  | PFloat _ => true
  | PStr EmptyString => false
  | PStr _ => true
  | PList [] => false
  | PList _ => true
  | PDict [] => false
  | PDict _ => true
  end.

(** [isinstance(v, dict)] and [isinstance(v, list)]. *)
Definition is_dict (v : pyval) : bool :=
  match v with PDict _ => true | _ => false end.

Definition is_list (v : pyval) : bool :=
  match v with PList _ => true | _ => false end.

(** Whether [hash(v)] succeeds: lists and dicts are unhashable. *)
Definition hashable (v : pyval) : bool :=
  match v with PList _ | PDict _ => false | _ => true end.

Fixpoint dict_lookup (d : list (string * pyval)) (key : string) : option pyval :=
  match d with
  | [] => None
  | (k, v) :: d' => if String.eqb k key then Some v else dict_lookup d' key
  end.

(** [d[key] = v] on a dict: an existing key keeps its position. *)
Fixpoint dict_set (d : list (string * pyval)) (key : string) (v : pyval)
  : list (string * pyval) :=
  match d with
  | [] => [(key, v)]
  | (k, w) :: d' =>
      if String.eqb k key then (k, v) :: d' else (k, w) :: dict_set d' key v
  end.

(** [needle in hay] on two strings. *)
Fixpoint str_contains (needle hay : string) : bool :=
  String.prefix needle hay ||
  match hay with
  | EmptyString => false
  | String _ hay' => str_contains needle hay'
  end.

(** [x == "s"] for an arbitrary value [x]: only a [str] equals a [str]. *)
Definition eq_str (x : pyval) (s : string) : bool :=
  match x with PStr t => String.eqb t s | _ => false end.

(** [len(v)]. *)
Definition py_len (v : pyval) : result nat :=
  match v with
  | PStr s => Ok (String.length s)
  | PList l => Ok (length l)
  | PDict d => Ok (length d)
  | _ => Raise TypeError
  end.

(** [v[i]] for a non-negative integer index [i]. The keys of a decoded
    JSON object are strings, so an integer key is never found. *)
Definition py_getitem (v : pyval) (i : nat) : result pyval :=
  match v with
  | PList l => match l !! i with Some x => Ok x | None => Raise IndexError end
  | PStr s =>
      match String.get i s with
      | Some c => Ok (PStr (String c EmptyString))
      | None => Raise IndexError
      end
  | PDict _ => Raise KeyError
  | _ => Raise TypeError
  end.

(** [key in v] for a string [key]. *)
Definition py_contains (v : pyval) (key : string) : result bool :=
  match v with
  | PDict d => Ok (bool_decide (is_Some (dict_lookup d key)))
  | PList l => Ok (existsb (fun x => eq_str x key) l)
  | PStr s => Ok (str_contains key s)
  | _ => Raise TypeError
  end.

(** [v[key]] for a string [key]. *)
Definition py_getitem_str (v : pyval) (key : string) : result pyval :=
  match v with
  | PDict d =>
      match dict_lookup d key with Some x => Ok x | None => Raise KeyError end
  | _ => Raise TypeError
  end.

(** [v.get(key, default)]: only a dict has the method. *)
Definition py_get (v : pyval) (key : string) (dflt : pyval) : result pyval :=
  match v with
  | PDict d => Ok (default dflt (dict_lookup d key))
  | _ => Raise AttributeError
  end.

(** The float literal [0.0]. *)
Definition float_zero : pyval := PFloat (S754_zero false).

(** ** Decoded records ([models.py])

    The dataclass annotations are not enforced at run time, so a field
    holds whatever value was decoded into it: every plain field is a
    [pyval]; the two nested records are optional. *)

Module DevWalletFunding.

Record t : Type := Build {
  wallet_address : pyval;
  funding_wallet_address : pyval;
  signature : pyval;
  amount_sol : pyval;
  funded_at : pyval
}.

(** [DevWalletFunding.from_ws_array]: [None] for a falsy argument,
    otherwise five [data.get] calls. *)
Definition from_ws_array (data : pyval) : result (option t) :=
  if negb (truthy data) then Ok None
  else
    wallet_address ← py_get data "walletAddress" (PStr "");
    funding_wallet_address ← py_get data "fundingWalletAddress" (PStr "");
    signature ← py_get data "signature" (PStr "");
    amount_sol ← py_get data "amountSol" float_zero;
    funded_at ← py_get data "fundedAt" (PStr "");
    Ok (Some (Build wallet_address funding_wallet_address signature
                amount_sol funded_at)).

(** [DevWalletFunding.from_xhr]: the same body as [from_ws_array]. *)
Definition from_xhr (data : pyval) : result (option t) :=
  if negb (truthy data) then Ok None
  else
    wallet_address ← py_get data "walletAddress" (PStr "");
    funding_wallet_address ← py_get data "fundingWalletAddress" (PStr "");
    signature ← py_get data "signature" (PStr "");
    amount_sol ← py_get data "amountSol" float_zero;
    funded_at ← py_get data "fundedAt" (PStr "");
    Ok (Some (Build wallet_address funding_wallet_address signature
                amount_sol funded_at)).

End DevWalletFunding.

Module ProtocolDetails.

Record t : Type := Build {
  creator : pyval;
  is_token_side_x : pyval;
  token_program : pyval;
  pair_sol_account : pyval;
  pair_token_account : pyval;
  global_addr : pyval;
  fee_recipient : pyval;
  associated_bonding_curve : pyval;
  event_authority : pyval;
  is_offchain : pyval
}.

(** [ProtocolDetails.from_dict]. *)
Definition from_dict (data : pyval) : result t :=
  creator ← py_get data "creator" (PStr "");
  is_token_side_x ← py_get data "isTokenSideX" PNone;
  token_program ← py_get data "tokenProgram" PNone;
  pair_sol_account ← py_get data "pairSolAccount" PNone;
  pair_token_account ← py_get data "pairTokenAccount" PNone;
  global_addr ← py_get data "global" PNone;
  fee_recipient ← py_get data "feeRecipient" PNone;
  associated_bonding_curve ← py_get data "associatedBondingCurve" PNone;
  event_authority ← py_get data "eventAuthority" PNone;
  is_offchain ← py_get data "isOffchain" PNone;
  Ok (Build creator is_token_side_x token_program pair_sol_account
        pair_token_account global_addr fee_recipient
        associated_bonding_curve event_authority is_offchain).

End ProtocolDetails.

(** [data[i] if len(data) > i else dflt]. *)
Definition slot (data : pyval) (i : nat) (dflt : pyval) : result pyval :=
  n ← py_len data;
  if bool_decide (i < n) then py_getitem data i else Ok dflt.

Module UpdatePulseItem.

Record t : Type := Build {
  pair_address : pyval;                                  (* index 0 *)
  token_address : pyval;                                 (* index 1 *)
  dev_address : pyval;                                   (* index 2 *)
  token_name : pyval;                                    (* index 3 *)
  token_ticker : pyval;                                  (* index 4 *)
  token_image : pyval;                                   (* index 5 *)
  token_decimals : pyval;                                (* index 6 *)
  protocol : pyval;                                      (* index 7 *)
  protocol_details : option ProtocolDetails.t;           (* index 8 *)
  website : pyval;                                       (* index 9 *)
  twitter : pyval;                                       (* index 10 *)
  telegram : pyval;                                      (* index 11 *)
  discord : pyval;                                       (* index 12 *)
  top_10_holders_percent : pyval;                        (* index 13 *)
  dev_holds_percent : pyval;                             (* index 14 *)
  snipers_hold_percent : pyval;                          (* index 15 *)
  insiders_hold_percent : pyval;                         (* index 16 *)
  bundlers_hold_percent : pyval;                         (* index 17 *)
  volume_sol : pyval;                                    (* index 18 *)
  market_cap_sol : pyval;                                (* index 19 *)
  fees_sol : pyval;                                      (* index 20 *)
  liquidity_sol : pyval;                                 (* index 21 *)
  liquidity_token : pyval;                               (* index 22 *)
  num_txns : pyval;                                      (* index 23 *)
  num_buys : pyval;                                      (* index 24 *)
  num_sells : pyval;                                     (* index 25 *)
  bonding_curve_percent : pyval;                         (* index 26 *)
  supply : pyval;                                        (* index 27 *)
  num_holders : pyval;                                   (* index 28 *)
  num_trading_bot_users : pyval;                         (* index 29 *)
  migrated_date : pyval;                                 (* index 30 *)
  extra : pyval;                                         (* index 31 *)
  field_32 : pyval;                                      (* index 32 *)
  migrated_tokens : pyval;                               (* index 33 *)
  first_mint_date : pyval;                               (* index 34 *)
  field_35 : pyval;                                      (* index 35 *)
  twitter_handle_history : pyval;                        (* index 36 *)
  field_37 : pyval;                                      (* index 37 *)
  dex_paid : pyval;                                      (* index 38 *)
  dev_wallet_funding : option DevWalletFunding.t;        (* index 39 *)
  kol_count : pyval;                                     (* index 40 *)
  dev_tokens : pyval;                                    (* index 41 *)
  field_42 : pyval                                       (* index 42 *)
}.

(** The [protocol_details] local of [from_array]:
    [len(data) > 8 and isinstance(data[8], dict)] guards the decode. *)
Definition decode_protocol_details (data : pyval)
  : result (option ProtocolDetails.t) :=
  n ← py_len data;
  if bool_decide (8 < n) then
    x ← py_getitem data 8;
    if is_dict x then
      pd ← ProtocolDetails.from_dict x; Ok (Some pd)
    else Ok None
  else Ok None.

(** The [dev_wallet_funding] local of [from_array]:
    [len(data) > 39 and data[39]] guards the decode. *)
Definition decode_dev_wallet_funding (data : pyval)
  : result (option DevWalletFunding.t) :=
  n ← py_len data;
  if bool_decide (39 < n) then
    x ← py_getitem data 39;
    if truthy x then DevWalletFunding.from_ws_array x else Ok None
  else Ok None.

(** [UpdatePulseItem.from_array]. *)
Definition from_array (data : pyval) : result t :=
  protocol_details ← decode_protocol_details data;
  dev_wallet_funding ← decode_dev_wallet_funding data;
  pair_address ← slot data 0 (PStr "");
  token_address ← slot data 1 (PStr "");
  dev_address ← slot data 2 (PStr "");
  token_name ← slot data 3 (PStr "");
  token_ticker ← slot data 4 (PStr "");
  token_image ← slot data 5 PNone;
  token_decimals ← slot data 6 (PInt 0);
  protocol ← slot data 7 (PStr "");
  website ← slot data 9 PNone;
  twitter ← slot data 10 PNone;
  telegram ← slot data 11 PNone;
  discord ← slot data 12 PNone;
  top_10_holders_percent ← slot data 13 float_zero;
  dev_holds_percent ← slot data 14 float_zero;
  snipers_hold_percent ← slot data 15 float_zero;
  insiders_hold_percent ← slot data 16 float_zero;
  bundlers_hold_percent ← slot data 17 float_zero;
  volume_sol ← slot data 18 float_zero;
  market_cap_sol ← slot data 19 float_zero;
  fees_sol ← slot data 20 float_zero;
  liquidity_sol ← slot data 21 float_zero;
  liquidity_token ← slot data 22 float_zero;
  num_txns ← slot data 23 (PInt 0);
  num_buys ← slot data 24 (PInt 0);
  num_sells ← slot data 25 (PInt 0);
  bonding_curve_percent ← slot data 26 float_zero;
  supply ← slot data 27 float_zero;
  num_holders ← slot data 28 (PInt 0);
  num_trading_bot_users ← slot data 29 (PInt 0);
  migrated_date ← slot data 30 PNone;
  extra ← slot data 31 PNone;
  field_32 ← slot data 32 PNone;
  migrated_tokens ← slot data 33 PNone;
  first_mint_date ← slot data 34 PNone;
  field_35 ← slot data 35 PNone;
  twitter_handle_history ← slot data 36 (PList []);
  field_37 ← slot data 37 PNone;
  dex_paid ← slot data 38 (PBool false);
  kol_count ← slot data 40 (PInt 0);
  dev_tokens ← slot data 41 PNone;
  field_42 ← slot data 42 PNone;
  Ok (Build pair_address token_address dev_address token_name token_ticker
        token_image token_decimals protocol protocol_details website
        twitter telegram discord top_10_holders_percent dev_holds_percent
        snipers_hold_percent insiders_hold_percent bundlers_hold_percent
        volume_sol market_cap_sol fees_sol liquidity_sol liquidity_token
        num_txns num_buys num_sells bonding_curve_percent supply
        num_holders num_trading_bot_users migrated_date extra field_32
        migrated_tokens first_mint_date field_35 twitter_handle_history
        field_37 dex_paid dev_wallet_funding kol_count dev_tokens
        field_42).

End UpdatePulseItem.

Module XHRPulseResponse.

Record t : Type := Build {
  pair_address : pyval;
  token_address : pyval;
  dev_address : pyval;
  token_name : pyval;
  token_ticker : pyval;
  token_image : pyval;
  token_decimals : pyval;
  protocol : pyval;
  protocol_details : pyval;
  website : pyval;
  twitter : pyval;
  telegram : pyval;
  discord : pyval;
  top_10_holders_percent : pyval;
  dev_holds_percent : pyval;
  dev_pair_count : pyval;
  snipers_hold_percent : pyval;
  insiders_hold_percent : pyval;
  bundlers_hold_percent : pyval;
  volume_sol : pyval;
  market_cap_sol : pyval;
  fees_sol : pyval;
  liquidity_sol : pyval;
  liquidity_token : pyval;
  bonding_curve_percent : pyval;
  supply : pyval;
  num_txns : pyval;
  num_buys : pyval;
  num_sells : pyval;
  num_holders : pyval;
  num_trading_bot_users : pyval;
  created_at : pyval;
  extra : pyval;
  dex_paid : pyval;
  migration_count : pyval;
  twitter_handle_history : pyval;
  open_trading : pyval;
  dev_wallet_funding : option DevWalletFunding.t;
  kol_count : pyval
}.

(** The [dev_wallet_funding] local of [from_dict]:
    ["devWalletFunding" in data and data["devWalletFunding"]] guards
    the decode. *)
Definition decode_dev_wallet_funding (data : pyval)
  : result (option DevWalletFunding.t) :=
  py_contains data "devWalletFunding" ≫= λ present : bool,
  if present then
    x ← py_getitem_str data "devWalletFunding";
    if truthy x then DevWalletFunding.from_xhr x else Ok None
  else Ok None.

(** [XHRPulseResponse.from_dict]. *)
Definition from_dict (data : pyval) : result t :=
  dev_wallet_funding ← decode_dev_wallet_funding data;
  pair_address ← py_get data "pairAddress" (PStr "");
  token_address ← py_get data "tokenAddress" (PStr "");
  dev_address ← py_get data "devAddress" (PStr "");
  token_name ← py_get data "tokenName" (PStr "");
  token_ticker ← py_get data "tokenTicker" (PStr "");
  token_image ← py_get data "tokenImage" PNone;
  token_decimals ← py_get data "tokenDecimals" (PInt 0);
  protocol ← py_get data "protocol" (PStr "");
  protocol_details ← py_get data "protocolDetails" (PDict []);
  website ← py_get data "website" PNone;
  twitter ← py_get data "twitter" PNone;
  telegram ← py_get data "telegram" PNone;
  discord ← py_get data "discord" PNone;
  top_10_holders_percent ← py_get data "top10HoldersPercent" float_zero;
  dev_holds_percent ← py_get data "devHoldsPercent" float_zero;
  dev_pair_count ← py_get data "devPairCount" (PInt 0);
  snipers_hold_percent ← py_get data "snipersHoldPercent" float_zero;
  insiders_hold_percent ← py_get data "insidersHoldPercent" float_zero;
  bundlers_hold_percent ← py_get data "bundlersHoldPercent" float_zero;
  volume_sol ← py_get data "volumeSol" float_zero;
  market_cap_sol ← py_get data "marketCapSol" float_zero;
  fees_sol ← py_get data "feesSol" float_zero;
  liquidity_sol ← py_get data "liquiditySol" float_zero;
  liquidity_token ← py_get data "liquidityToken" float_zero;
  bonding_curve_percent ← py_get data "bondingCurvePercent" float_zero;
  supply ← py_get data "supply" float_zero;
  num_txns ← py_get data "numTxns" (PInt 0);
  num_buys ← py_get data "numBuys" (PInt 0);
  num_sells ← py_get data "numSells" (PInt 0);
  num_holders ← py_get data "numHolders" (PInt 0);
  num_trading_bot_users ← py_get data "numTradingBotUsers" (PInt 0);
  created_at ← py_get data "createdAt" (PStr "");
  extra ← py_get data "extra" PNone;
  dex_paid ← py_get data "dexPaid" (PBool false);
  migration_count ← py_get data "migrationCount" (PInt 0);
  twitter_handle_history ← py_get data "twitterHandleHistory" (PList []);
  open_trading ← py_get data "openTrading" (PStr "");
  kol_count ← py_get data "kolCount" (PInt 0);
  Ok (Build pair_address token_address dev_address token_name token_ticker
        token_image token_decimals protocol protocol_details website
        twitter telegram discord top_10_holders_percent dev_holds_percent
        dev_pair_count snipers_hold_percent insiders_hold_percent
        bundlers_hold_percent volume_sol market_cap_sol fees_sol
        liquidity_sol liquidity_token bonding_curve_percent supply
        num_txns num_buys num_sells num_holders num_trading_bot_users
        created_at extra dex_paid migration_count twitter_handle_history
        open_trading dev_wallet_funding kol_count).

End XHRPulseResponse.

(** ** Configuration ([config.py]) *)

Module FilterConfig.

(** The dataclass after [__post_init__]: both address sets are sets. *)
Record t : Type := Build {
  TARGET_HOST : string;
  ROOM_NEW_PAIRS : string;
  ROOM_UPDATE_PULSE : string;
  BINANCE_ADDRESS : string;
  KUCOIN_ADDRESS : string;
  BYBIT_ADDRESS : string;
  MEXC_ADDRESS : string;
  DEV_ADDRESSES : gset string;
  FUNDER_ADDRESSES : gset string;
  FILTER_BY_DEV_ADDRESS : bool;
  FILTER_BY_FUNDING_WALLET : bool;
  ENABLE_LOGGING : bool;
  VERBOSE_LOGGING : bool
}.

(** [__post_init__]: an address set left at [None] by the constructor
    is replaced by its literal. *)
Definition __post_init__ (kucoin mexc bybit : string)
    (dev funder : option (gset string)) : gset string * gset string :=
  (default {[ "asdsadasdsa" ]} dev,
   default {[ kucoin; mexc; bybit ]} funder).

(** [FilterConfig()] with every field at its declared default. *)
Definition config : t :=
  let binance := "5tzFkiKscXHK5ZXCGbXZxdw7gTjjD1mBwuoFbhUvuAi9" in
  let kucoin := "BmFdpraQhkiDQE6SnfG5omcA1VwzqfXrwtNYBwWTymy6" in
  let bybit := "iGdFcQoyR2MwbXMHQskhmNsqddZ6rinsipHc4TNSdwu" in
  let mexc := "ASTyfSima4LLAdDgoFGkgqoKowG1LZFDr9fAQrg7iaJZ" in
  let sets := __post_init__ kucoin mexc bybit None None in
  {| TARGET_HOST := "axiom.trade";
     ROOM_NEW_PAIRS := "new_pairs";
     ROOM_UPDATE_PULSE := "update_pulse_v2";
     BINANCE_ADDRESS := binance;
     KUCOIN_ADDRESS := kucoin;
     BYBIT_ADDRESS := bybit;
     MEXC_ADDRESS := mexc;
     DEV_ADDRESSES := sets.1;
     FUNDER_ADDRESSES := sets.2;
     FILTER_BY_DEV_ADDRESS := false;
     FILTER_BY_FUNDING_WALLET := true;
     ENABLE_LOGGING := false;
     VERBOSE_LOGGING := false |}.

Definition with_DEV_ADDRESSES (cfg : t) (s : gset string) : t :=
  Build (TARGET_HOST cfg) (ROOM_NEW_PAIRS cfg) (ROOM_UPDATE_PULSE cfg)
    (BINANCE_ADDRESS cfg) (KUCOIN_ADDRESS cfg) (BYBIT_ADDRESS cfg)
    (MEXC_ADDRESS cfg) s (FUNDER_ADDRESSES cfg)
    (FILTER_BY_DEV_ADDRESS cfg) (FILTER_BY_FUNDING_WALLET cfg)
    (ENABLE_LOGGING cfg) (VERBOSE_LOGGING cfg).

Definition with_FUNDER_ADDRESSES (cfg : t) (s : gset string) : t :=
  Build (TARGET_HOST cfg) (ROOM_NEW_PAIRS cfg) (ROOM_UPDATE_PULSE cfg)
    (BINANCE_ADDRESS cfg) (KUCOIN_ADDRESS cfg) (BYBIT_ADDRESS cfg)
    (MEXC_ADDRESS cfg) (DEV_ADDRESSES cfg) s
    (FILTER_BY_DEV_ADDRESS cfg) (FILTER_BY_FUNDING_WALLET cfg)
    (ENABLE_LOGGING cfg) (VERBOSE_LOGGING cfg).

Definition add_dev_address (cfg : t) (address : string) : t :=
  with_DEV_ADDRESSES cfg ({[ address ]} ∪ DEV_ADDRESSES cfg).

Definition add_funder_address (cfg : t) (address : string) : t :=
  with_FUNDER_ADDRESSES cfg ({[ address ]} ∪ FUNDER_ADDRESSES cfg).

Definition remove_dev_address (cfg : t) (address : string) : t :=
  with_DEV_ADDRESSES cfg (DEV_ADDRESSES cfg ∖ {[ address ]}).

Definition remove_funder_address (cfg : t) (address : string) : t :=
  with_FUNDER_ADDRESSES cfg (FUNDER_ADDRESSES cfg ∖ {[ address ]}).

End FilterConfig.

(** [x in s] for a set of strings [s]: hashing a list or a dict raises
    [TypeError]; any other non-string is hashable and equal to no member. *)
Definition py_in_set (x : pyval) (s : gset string) : result bool :=
  match x with
  | PStr a => Ok (bool_decide (a ∈ s))
  | PList _ | PDict _ => Raise TypeError
  | _ => Ok false
  end.

(** A list comprehension [[x for x in l if p(x)]] whose condition may
    raise: the first exception aborts the whole comprehension. *)
Fixpoint comprehension_if {A} (p : A → result bool) (l : list A)
  : result (list A) :=
  match l with
  | [] => Ok []
  | x :: l' =>
      p x ≫= λ b : bool,
      rest ← comprehension_if p l';
      Ok (if b then x :: rest else rest)
  end.

(** ** Filter policy and counters ([filters.py]) *)

Module MessageFilter.
Import FilterConfig.

(** The two criteria blocks shared by both evaluators, on the decoded
    [dev_address] and [dev_wallet_funding]. *)
Definition criteria (cfg : FilterConfig.t) (dev_address : pyval)
    (dev_wallet_funding : option DevWalletFunding.t) : result bool :=
  (if FILTER_BY_DEV_ADDRESS cfg
   then py_in_set dev_address (DEV_ADDRESSES cfg)
   else Ok false) ≫= λ by_dev : bool,
  if by_dev then Ok true
  else
    (if FILTER_BY_FUNDING_WALLET cfg then
       match dev_wallet_funding with
       | Some f =>
           py_in_set (DevWalletFunding.funding_wallet_address f)
             (FUNDER_ADDRESSES cfg)
       | None => Ok false
       end
     else Ok false) ≫= λ by_funder : bool,
    if by_funder then Ok true else Ok false.

(** [should_keep_update_pulse_item]. *)
Definition should_keep_update_pulse_item (cfg : FilterConfig.t)
    (item_array : pyval) : result bool :=
  item ← UpdatePulseItem.from_array item_array;
  criteria cfg (UpdatePulseItem.dev_address item)
    (UpdatePulseItem.dev_wallet_funding item).

(** [filter_update_pulse_content]. *)
Definition filter_update_pulse_content (cfg : FilterConfig.t)
    (content : list pyval) : result (list pyval) :=
  comprehension_if (should_keep_update_pulse_item cfg) content.

(** [should_keep_xhr_response]. *)
Definition should_keep_xhr_response (cfg : FilterConfig.t)
    (response_dict : pyval) : result bool :=
  response ← XHRPulseResponse.from_dict response_dict;
  criteria cfg (XHRPulseResponse.dev_address response)
    (XHRPulseResponse.dev_wallet_funding response).

(** [filter_xhr_responses]. *)
Definition filter_xhr_responses (cfg : FilterConfig.t)
    (responses : list pyval) : result (list pyval) :=
  comprehension_if (should_keep_xhr_response cfg) responses.

(** [should_keep_new_pair]: the body is [return True]. *)
Definition should_keep_new_pair (cfg : FilterConfig.t) (content : pyval)
  : bool := true.

End MessageFilter.

Module FilterStats.

Record t : Type := Build {
  total_update_pulse_items : Z;
  filtered_update_pulse_items : Z;
  total_xhr_responses : Z;
  filtered_xhr_responses : Z;
  total_new_pairs : Z;
  filtered_new_pairs : Z
}.

(** [FilterStats()]. *)
Definition init : t := Build 0 0 0 0 0 0.

Definition record_update_pulse (s : t) (total filtered : Z) : t :=
  Build (total_update_pulse_items s + total)
    (filtered_update_pulse_items s + filtered)
    (total_xhr_responses s) (filtered_xhr_responses s)
    (total_new_pairs s) (filtered_new_pairs s).

Definition record_xhr (s : t) (total filtered : Z) : t :=
  Build (total_update_pulse_items s) (filtered_update_pulse_items s)
    (total_xhr_responses s + total) (filtered_xhr_responses s + filtered)
    (total_new_pairs s) (filtered_new_pairs s).

Definition record_new_pair (s : t) (kept : bool) : t :=
  Build (total_update_pulse_items s) (filtered_update_pulse_items s)
    (total_xhr_responses s) (filtered_xhr_responses s)
    (total_new_pairs s + 1)
    (if kept then filtered_new_pairs s + 1 else filtered_new_pairs s).

Definition reset (s : t) : t := Build 0 0 0 0 0 0.

End FilterStats.

(** ** Strings: [lower()] and slicing *)

(** [str.lower()] on one character below 256: the upper-case letters are
    [A-Z], [À-Ö] and [Ø-Þ], each 32 below its lower-case form. *)
Definition char_lower (c : ascii) : ascii :=
  let n := nat_of_ascii c in
  if ((65 <=? n) && (n <=? 90)
      || (192 <=? n) && (n <=? 222) && negb (n =? 215))%nat
  then ascii_of_nat (n + 32) else c.

Fixpoint str_lower (s : string) : string :=
  match s with
  | EmptyString => EmptyString
  | String c s' => String (char_lower c) (str_lower s')
  end.

(** [s[:n]]. *)
Fixpoint str_take (n : nat) (s : string) : string :=
  match n, s with
  | S n', String c s' => String c (str_take n' s')
  | _, _ => EmptyString
  end.

(** [v[key] = x] for a string [key]. *)
Definition py_setitem_str (v : pyval) (key : string) (x : pyval)
  : result pyval :=
  match v with
  | PDict d => Ok (PDict (dict_set d key x))
  | _ => Raise TypeError
  end.

(** ** The transport objects the hooks receive (mitmproxy) *)

Module WebSocketMessage.

Record t : Type := Build {
  content : string;       (* the payload bytes *)
  from_client : bool;
  is_text : bool;         (* a text frame, as opposed to a binary one *)
  dropped : bool
}.

(** [message.drop()]. *)
Definition drop (m : t) : t :=
  Build (content m) (from_client m) (is_text m) true.

Definition with_content (m : t) (c : string) : t :=
  Build c (from_client m) (is_text m) (dropped m).

End WebSocketMessage.

Module HTTPFlow.

Record t : Type := Build {
  (* [flow.server_conn], and inside it [address[0]] when there is one *)
  server_conn : option (option string);
  pretty_host : string;                    (* [flow.request.pretty_host] *)
  path : string;                           (* [flow.request.path] *)
  method : string;                         (* [flow.request.method] *)
  response : option string;                (* [flow.response.content] *)
  (* [flow.websocket.messages] *)
  websocket : option (list WebSocketMessage.t)
}.

Definition with_response (f : t) (c : string) : t :=
  Build (server_conn f) (pretty_host f) (path f) (method f) (Some c)
    (websocket f).

(** The flow after one of its messages was mutated in place. *)
Definition with_messages (f : t) (ms : list WebSocketMessage.t) : t :=
  Build (server_conn f) (pretty_host f) (path f) (method f) (response f)
    (Some ms).

End HTTPFlow.

(** [l[:-1] + [x]]: the list with its last element replaced. *)
Definition replace_last {A} (l : list A) (x : A) : list A :=
  removelast l ++ [x].

(** ** The dispatch hooks ([axiom_filter.py]) *)

Module AxiomTradeFilter.
Import FilterConfig.

Section Hooks.

(** The library calls of the hooks, taken as they are:
    [bytes.decode("utf-8")] ([None] when it raises),
    [str.encode("utf-8")], [base64.b64encode(b).decode()],
    [json.loads] on a [str] and on [bytes], and [json.dumps]. *)
Variable decode_utf8 : string → option string.
Variable encode_utf8 : string → string.
Variable b64encode : string → string.
Variable json_loads : string → result pyval.
Variable json_loads_bytes : string → result pyval.
Variable json_dumps : pyval → string.

Variable cfg : FilterConfig.t.

(** [_is_target_host]: a missing connection gives the host [""], and
    so does the exception of a connection without an address. *)
Definition _is_target_host (flow : HTTPFlow.t) : bool :=
  let host :=
    match HTTPFlow.server_conn flow with
    | Some (Some h) => h
    | Some None => ""
    | None => ""
    end in
  str_contains (TARGET_HOST cfg) host
  || str_contains (TARGET_HOST cfg) (HTTPFlow.pretty_host flow).

(** [_decode_message_content], on the bytes of a message. *)
Definition _decode_message_content (content : string) : string :=
  match decode_utf8 content with
  | Some text => text
  | None => "base64:" +:+ b64encode content
  end.

(** [_get_room_name]. *)
Definition _get_room_name (text : string) : option string :=
  let text_start := str_take 50 (str_lower text) in
  if str_contains (ROOM_NEW_PAIRS cfg) text_start
  then Some (ROOM_NEW_PAIRS cfg)
  else if str_contains (ROOM_UPDATE_PULSE cfg) text_start
  then Some (ROOM_UPDATE_PULSE cfg)
  else None.

(** The [try] block of [_filter_update_pulse_message]. Every
    statement that can raise comes before the first state change. *)
Definition _filter_update_pulse_body (stats : FilterStats.t)
    (message : WebSocketMessage.t) (text : string)
  : result (FilterStats.t * WebSocketMessage.t) :=
  data ← json_loads text;
  py_contains data "content" ≫= λ has_content : bool,
  if negb has_content then Ok (stats, message)
  else
    py_getitem_str data "content" ≫= λ content : pyval,
    match content with
    | PList items =>
        let original_count := length items in
        filtered_content ←
          MessageFilter.filter_update_pulse_content cfg items;
        let stats' :=
          FilterStats.record_update_pulse stats
            (Z.of_nat original_count)
            (Z.of_nat (length filtered_content)) in
        if (length filtered_content =? 0)%nat then
          Ok (stats', WebSocketMessage.drop message)
        else
          data' ← py_setitem_str data "content" (PList filtered_content);
          let new_text := json_dumps data' in
          if WebSocketMessage.is_text message then
            Ok (stats',
                WebSocketMessage.with_content message
                  (encode_utf8 new_text))
          else Ok (stats', message)
    | _ => Ok (stats, message)
    end.

(** [_filter_update_pulse_message]: both [except] clauses only log. *)
Definition _filter_update_pulse_message (stats : FilterStats.t)
    (message : WebSocketMessage.t) (text : string)
  : FilterStats.t * WebSocketMessage.t :=
  match _filter_update_pulse_body stats message text with
  | Ok r => r
  | Raise _ => (stats, message)
  end.

(** The [try] block of [_filter_new_pairs_message]. The verbose
    branch reads [data["content"].get(...)] for a log line only; an
    exception there comes after the counters were updated and
    changes nothing else. *)
Definition _filter_new_pairs_body (stats : FilterStats.t)
    (message : WebSocketMessage.t) (text : string)
  : result (FilterStats.t * WebSocketMessage.t) :=
  data ← json_loads text;
  py_contains data "content" ≫= λ has_content : bool,
  if negb has_content then Ok (stats, message)
  else
    content ← py_getitem_str data "content";
    let should_keep := MessageFilter.should_keep_new_pair cfg content in
    let stats' := FilterStats.record_new_pair stats should_keep in
    if negb should_keep then Ok (stats', WebSocketMessage.drop message)
    else Ok (stats', message).

(** [_filter_new_pairs_message]. *)
Definition _filter_new_pairs_message (stats : FilterStats.t)
    (message : WebSocketMessage.t) (text : string)
  : FilterStats.t * WebSocketMessage.t :=
  match _filter_new_pairs_body stats message text with
  | Ok r => r
  | Raise _ => (stats, message)
  end.

(** [websocket_message]: the hook for one WebSocket message. The
    message handled is the last one of the flow, mutated in place. *)
Definition websocket_message (stats : FilterStats.t) (flow : HTTPFlow.t)
  : FilterStats.t * HTTPFlow.t :=
  if negb (_is_target_host flow) then (stats, flow)
  else
    match HTTPFlow.websocket flow with
    | None => (stats, flow)
    | Some messages =>
        match last messages with
        | None => (stats, flow)
        | Some message =>
            if WebSocketMessage.from_client message then (stats, flow)
            else
              let text :=
                _decode_message_content
                  (WebSocketMessage.content message) in
              let room := _get_room_name text in
              if bool_decide (room = Some (ROOM_UPDATE_PULSE cfg)) then
                let '(stats', message') :=
                  _filter_update_pulse_message stats message text in
                (stats',
                 HTTPFlow.with_messages flow
                   (replace_last messages message'))
              else if bool_decide (room = Some (ROOM_NEW_PAIRS cfg)) then
                let '(stats', message') :=
                  _filter_new_pairs_message stats message text in
                (stats',
                 HTTPFlow.with_messages flow
                   (replace_last messages
                      (WebSocketMessage.drop message')))
              else (stats, flow)
        end
    end.

(** The [try] block of [response]. *)
Definition response_body (stats : FilterStats.t) (flow : HTTPFlow.t)
  : result (FilterStats.t * HTTPFlow.t) :=
  match HTTPFlow.response flow with
  | None => Raise AttributeError
  | Some raw =>
      content ← json_loads_bytes raw;
      match content with
      | PList items =>
          let original_count := length items in
          filtered_content ←
            MessageFilter.filter_xhr_responses cfg items;
          Ok (FilterStats.record_xhr stats (Z.of_nat original_count)
                (Z.of_nat (length filtered_content)),
              HTTPFlow.with_response flow
                (encode_utf8 (json_dumps (PList filtered_content))))
      | PDict _ =>
          MessageFilter.should_keep_xhr_response cfg content
            ≫= λ should_keep : bool,
          let stats' :=
            FilterStats.record_xhr stats 1
              (if should_keep then 1 else 0) in
          if negb should_keep then
            Ok (stats',
                HTTPFlow.with_response flow
                  (encode_utf8 (json_dumps (PDict []))))
          else Ok (stats', flow)
      | _ => Ok (stats, flow)
      end
  end.

(** [response]: the hook for one HTTP response. *)
Definition response (stats : FilterStats.t) (flow : HTTPFlow.t)
  : FilterStats.t * HTTPFlow.t :=
  if negb (String.eqb (HTTPFlow.path flow) "/pulse")
     || negb (String.eqb (HTTPFlow.method flow) "POST")
  then (stats, flow)
  else if negb (_is_target_host flow) then (stats, flow)
  else
    match response_body stats flow with
    | Ok r => r
    | Raise _ => (stats, flow)
    end.

End Hooks.

End AxiomTradeFilter.

(** ** The new-pair record ([models.py]) *)

Module NewPairContent.

Record t : Type := Build {
  pair_address : pyval;
  signature : pyval;
  token_address : pyval;
  token_name : pyval;
  token_ticker : pyval;
  token_image : pyval;
  token_uri : pyval;
  token_decimals : pyval;
  pair_sol_account : pyval;
  pair_token_account : pyval;
  protocol : pyval;
  protocol_details : pyval;
  created_at : pyval;
  website : pyval;
  twitter : pyval;
  telegram : pyval;
  discord : pyval;
  mint_authority : pyval;
  open_trading : pyval;
  deployer_address : pyval;
  supply : pyval;
  initial_liquidity_sol : pyval;
  initial_liquidity_token : pyval;
  top_10_holders : pyval;
  lp_burned : pyval;
  updated_at : pyval;
  dev_holds_percent : pyval;
  snipers_hold_percent : pyval;
  freeze_authority : pyval;
  extra : pyval;
  slot : pyval
}.

(** [NewPairContent.from_dict]. *)
Definition from_dict (data : pyval) : result t :=
  pair_address ← py_get data "pair_address" (PStr "");
  signature ← py_get data "signature" (PStr "");
  token_address ← py_get data "token_address" (PStr "");
  token_name ← py_get data "token_name" (PStr "");
  token_ticker ← py_get data "token_ticker" (PStr "");
  token_image ← py_get data "token_image" PNone;
  token_uri ← py_get data "token_uri" (PStr "");
  token_decimals ← py_get data "token_decimals" (PInt 0);
  pair_sol_account ← py_get data "pair_sol_account" (PStr "");
  pair_token_account ← py_get data "pair_token_account" (PStr "");
  protocol ← py_get data "protocol" (PStr "");
  protocol_details ← py_get data "protocol_details" (PDict []);
  created_at ← py_get data "created_at" (PStr "");
  website ← py_get data "website" PNone;
  twitter ← py_get data "twitter" PNone;
  telegram ← py_get data "telegram" PNone;
  discord ← py_get data "discord" PNone;
  mint_authority ← py_get data "mint_authority" PNone;
  open_trading ← py_get data "open_trading" (PStr "");
  deployer_address ← py_get data "deployer_address" (PStr "");
  supply ← py_get data "supply" float_zero;
  initial_liquidity_sol ← py_get data "initial_liquidity_sol" float_zero;
  initial_liquidity_token ← py_get data "initial_liquidity_token" float_zero;
  top_10_holders ← py_get data "top_10_holders" float_zero;
  lp_burned ← py_get data "lp_burned" float_zero;
  updated_at ← py_get data "updated_at" (PStr "");
  dev_holds_percent ← py_get data "dev_holds_percent" float_zero;
  snipers_hold_percent ← py_get data "snipers_hold_percent" float_zero;
  freeze_authority ← py_get data "freeze_authority" PNone;
  extra ← py_get data "extra" PNone;
  slot ← py_get data "slot" (PInt 0);
  Ok (Build pair_address signature token_address token_name token_ticker
        token_image token_uri token_decimals pair_sol_account
        pair_token_account protocol protocol_details created_at website
        twitter telegram discord mint_authority open_trading
        deployer_address supply initial_liquidity_sol
        initial_liquidity_token top_10_holders lp_burned updated_at
        dev_holds_percent snipers_hold_percent freeze_authority extra slot).

End NewPairContent.

(** ** Keyed views of the decoded records

    Each keyed decoder reads one key per field; the views list a
    record's fields beside the key each one is read from, and the
    default the decoder gives to [data.get]. *)

Definition xhr_keyed_fields (r : XHRPulseResponse.t)
  : list (string * pyval) :=
  let 'XHRPulseResponse.Build f0 f1 f2 f3 f4 f5 f6 f7 f8 f9 f10 f11 f12
         f13 f14 f15 f16 f17 f18 f19 f20 f21 f22 f23 f24 f25 f26 f27 f28
         f29 f30 f31 f32 f33 f34 f35 f36 _ f38 := r in
  [("pairAddress", f0); ("tokenAddress", f1); ("devAddress", f2);
   ("tokenName", f3); ("tokenTicker", f4); ("tokenImage", f5);
   ("tokenDecimals", f6); ("protocol", f7); ("protocolDetails", f8);
   ("website", f9); ("twitter", f10); ("telegram", f11); ("discord", f12);
   ("top10HoldersPercent", f13); ("devHoldsPercent", f14);
   ("devPairCount", f15); ("snipersHoldPercent", f16);
   ("insidersHoldPercent", f17); ("bundlersHoldPercent", f18);
   ("volumeSol", f19); ("marketCapSol", f20); ("feesSol", f21);
   ("liquiditySol", f22); ("liquidityToken", f23);
   ("bondingCurvePercent", f24); ("supply", f25); ("numTxns", f26);
   ("numBuys", f27); ("numSells", f28); ("numHolders", f29);
   ("numTradingBotUsers", f30); ("createdAt", f31); ("extra", f32);
   ("dexPaid", f33); ("migrationCount", f34);
   ("twitterHandleHistory", f35); ("openTrading", f36); ("kolCount", f38)].

Definition xhr_key_defaults : list (string * pyval) :=
  [("pairAddress", PStr ""); ("tokenAddress", PStr "");
   ("devAddress", PStr ""); ("tokenName", PStr ""); ("tokenTicker", PStr "");
   ("tokenImage", PNone); ("tokenDecimals", PInt 0); ("protocol", PStr "");
   ("protocolDetails", PDict []); ("website", PNone); ("twitter", PNone);
   ("telegram", PNone); ("discord", PNone);
   ("top10HoldersPercent", float_zero); ("devHoldsPercent", float_zero);
   ("devPairCount", PInt 0); ("snipersHoldPercent", float_zero);
   ("insidersHoldPercent", float_zero); ("bundlersHoldPercent", float_zero);
   ("volumeSol", float_zero); ("marketCapSol", float_zero);
   ("feesSol", float_zero); ("liquiditySol", float_zero);
   ("liquidityToken", float_zero); ("bondingCurvePercent", float_zero);
   ("supply", float_zero); ("numTxns", PInt 0); ("numBuys", PInt 0);
   ("numSells", PInt 0); ("numHolders", PInt 0);
   ("numTradingBotUsers", PInt 0); ("createdAt", PStr ""); ("extra", PNone);
   ("dexPaid", PBool false); ("migrationCount", PInt 0);
   ("twitterHandleHistory", PList []); ("openTrading", PStr "");
   ("kolCount", PInt 0)].

Definition new_pair_keyed_fields (r : NewPairContent.t)
  : list (string * pyval) :=
  let 'NewPairContent.Build f0 f1 f2 f3 f4 f5 f6 f7 f8 f9 f10 f11 f12 f13
         f14 f15 f16 f17 f18 f19 f20 f21 f22 f23 f24 f25 f26 f27 f28 f29
         f30 := r in
  [("pair_address", f0); ("signature", f1); ("token_address", f2);
   ("token_name", f3); ("token_ticker", f4); ("token_image", f5);
   ("token_uri", f6); ("token_decimals", f7); ("pair_sol_account", f8);
   ("pair_token_account", f9); ("protocol", f10); ("protocol_details", f11);
   ("created_at", f12); ("website", f13); ("twitter", f14);
   ("telegram", f15); ("discord", f16); ("mint_authority", f17);
   ("open_trading", f18); ("deployer_address", f19); ("supply", f20);
   ("initial_liquidity_sol", f21); ("initial_liquidity_token", f22);
   ("top_10_holders", f23); ("lp_burned", f24); ("updated_at", f25);
   ("dev_holds_percent", f26); ("snipers_hold_percent", f27);
   ("freeze_authority", f28); ("extra", f29); ("slot", f30)].

Definition new_pair_key_defaults : list (string * pyval) :=
  [("pair_address", PStr ""); ("signature", PStr "");
   ("token_address", PStr ""); ("token_name", PStr "");
   ("token_ticker", PStr ""); ("token_image", PNone);
   ("token_uri", PStr ""); ("token_decimals", PInt 0);
   ("pair_sol_account", PStr ""); ("pair_token_account", PStr "");
   ("protocol", PStr ""); ("protocol_details", PDict []);
   ("created_at", PStr ""); ("website", PNone); ("twitter", PNone);
   ("telegram", PNone); ("discord", PNone); ("mint_authority", PNone);
   ("open_trading", PStr ""); ("deployer_address", PStr "");
   ("supply", float_zero); ("initial_liquidity_sol", float_zero);
   ("initial_liquidity_token", float_zero); ("top_10_holders", float_zero);
   ("lp_burned", float_zero); ("updated_at", PStr "");
   ("dev_holds_percent", float_zero); ("snipers_hold_percent", float_zero);
   ("freeze_authority", PNone); ("extra", PNone); ("slot", PInt 0)].

(** What [data.get(key, dflt)] gives for each listed key of a dict. *)
Definition read_keys (d : list (string * pyval))
    (key_defaults : list (string * pyval)) : list (string * pyval) :=
  map (λ kd, (kd.1, default kd.2 (dict_lookup d kd.1))) key_defaults.

(** ** Vocabulary of the properties *)

(** One decoded field of a pulse-update item, by positional index. *)
Inductive field_value : Type :=
| Plain (v : pyval)
| Protocol (p : option ProtocolDetails.t)
| Funding (f : option DevWalletFunding.t).

(** The fields of an item in index order, 0 to 42. *)
Definition fields (r : UpdatePulseItem.t) : list field_value :=
  let 'UpdatePulseItem.Build f0 f1 f2 f3 f4 f5 f6 f7 f8 f9 f10 f11 f12 f13
         f14 f15 f16 f17 f18 f19 f20 f21 f22 f23 f24 f25 f26 f27 f28 f29
         f30 f31 f32 f33 f34 f35 f36 f37 f38 f39 f40 f41 f42 := r in
  [Plain f0; Plain f1; Plain f2; Plain f3; Plain f4; Plain f5; Plain f6;
   Plain f7; Protocol f8; Plain f9; Plain f10; Plain f11; Plain f12;
   Plain f13; Plain f14; Plain f15; Plain f16; Plain f17; Plain f18;
   Plain f19; Plain f20; Plain f21; Plain f22; Plain f23; Plain f24;
   Plain f25; Plain f26; Plain f27; Plain f28; Plain f29; Plain f30;
   Plain f31; Plain f32; Plain f33; Plain f34; Plain f35; Plain f36;
   Plain f37; Plain f38; Funding f39; Plain f40; Plain f41; Plain f42].

(** The default of each index: empty string for the five leading text
    fields and the protocol, [None] for the optional ones, [0] for the
    integer counts, [0.0] for the float metrics, the empty list for the
    handle history and [False] for [dex_paid]. *)
Definition documented_defaults : list field_value :=
  [Plain (PStr ""); Plain (PStr ""); Plain (PStr ""); Plain (PStr "");
   Plain (PStr ""); Plain PNone; Plain (PInt 0); Plain (PStr "");
   Protocol None; Plain PNone; Plain PNone; Plain PNone; Plain PNone;
   Plain float_zero; Plain float_zero; Plain float_zero; Plain float_zero;
   Plain float_zero; Plain float_zero; Plain float_zero; Plain float_zero;
   Plain float_zero; Plain float_zero; Plain (PInt 0); Plain (PInt 0);
   Plain (PInt 0); Plain float_zero; Plain float_zero; Plain (PInt 0);
   Plain (PInt 0); Plain PNone; Plain PNone; Plain PNone; Plain PNone;
   Plain PNone; Plain PNone; Plain (PList []); Plain PNone;
   Plain (PBool false); Funding None; Plain (PInt 0); Plain PNone;
   Plain PNone].

(** [a] is a string and a member of the address set [s]. *)
Definition member (x : pyval) (s : gset string) : Prop :=
  ∃ a, x = PStr a ∧ a ∈ s.

(** The keep condition of the policy, in the words of the specification:
    the dev-address criterion is enabled and matches, or the
    funding-wallet criterion is enabled, the funding record is present
    and its funding address matches. *)
Definition keep_condition (cfg : FilterConfig.t) (dev_address : pyval)
    (dev_wallet_funding : option DevWalletFunding.t) : Prop :=
  (FilterConfig.FILTER_BY_DEV_ADDRESS cfg = true
   ∧ member dev_address (FilterConfig.DEV_ADDRESSES cfg))
  ∨ (FilterConfig.FILTER_BY_FUNDING_WALLET cfg = true
     ∧ ∃ f, dev_wallet_funding = Some f
            ∧ member (DevWalletFunding.funding_wallet_address f)
                (FilterConfig.FUNDER_ADDRESSES cfg)).

(** The address fields a criterion tests can be hashed. Every value of
    the declared type [str] can, and so can every number, boolean and
    [None]. *)
Definition addresses_hashable (dev_address : pyval)
    (dev_wallet_funding : option DevWalletFunding.t) : Prop :=
  hashable dev_address = true
  ∧ ∀ f, dev_wallet_funding = Some f
         → hashable (DevWalletFunding.funding_wallet_address f) = true.

(** An evaluator verdict that is a returned [True]. *)
Definition is_keep (verdict : result bool) : bool :=
  match verdict with Ok true => true | _ => false end.

(** The calls of the statistics interface. *)
Inductive stats_call : Type :=
| RecordUpdatePulse (total filtered : Z)
| RecordXhr (total filtered : Z)
| RecordNewPair (kept : bool).

Definition apply_call (s : FilterStats.t) (c : stats_call) : FilterStats.t :=
  match c with
  | RecordUpdatePulse total filtered =>
      FilterStats.record_update_pulse s total filtered
  | RecordXhr total filtered => FilterStats.record_xhr s total filtered
  | RecordNewPair kept => FilterStats.record_new_pair s kept
  end.

Definition run_calls (s : FilterStats.t) (cs : list stats_call)
  : FilterStats.t :=
  foldl apply_call s cs.

(** Per category, [0 <= kept_sum <= total_sum]. *)
Definition stats_invariant (s : FilterStats.t) : Prop :=
  (0 ≤ FilterStats.filtered_update_pulse_items s
     ≤ FilterStats.total_update_pulse_items s)%Z
  ∧ (0 ≤ FilterStats.filtered_xhr_responses s
       ≤ FilterStats.total_xhr_responses s)%Z
  ∧ (0 ≤ FilterStats.filtered_new_pairs s ≤ FilterStats.total_new_pairs s)%Z.

(** A call whose own arguments satisfy [0 <= filtered <= total]. *)
Definition call_in_range (c : stats_call) : Prop :=
  match c with
  | RecordUpdatePulse total filtered | RecordXhr total filtered =>
      (0 ≤ filtered ≤ total)%Z
  | RecordNewPair _ => True
  end.

(** What the specification asks of one evaluator verdict, given the
    tested fields of the decoded record: the verdict is returned
    whenever the address fields are hashable, and it is then [True]
    exactly under the keep condition; any returned verdict is [True]
    exactly under the keep condition; with both criteria disabled the
    verdict is [False]; and a dev-address match alone decides [True],
    whatever the funding record holds. *)
Definition policy_verdict (cfg : FilterConfig.t) (verdict : result bool)
    (dev_address : pyval) (dev_wallet_funding : option DevWalletFunding.t)
  : Prop :=
  (addresses_hashable dev_address dev_wallet_funding
   → returns verdict
     ∧ (verdict = Ok true
        ↔ keep_condition cfg dev_address dev_wallet_funding))
  ∧ (∀ b, verdict = Ok b
          → (b = true ↔ keep_condition cfg dev_address dev_wallet_funding))
  ∧ (FilterConfig.FILTER_BY_DEV_ADDRESS cfg = false
     → FilterConfig.FILTER_BY_FUNDING_WALLET cfg = false
     → verdict = Ok false)
  ∧ (FilterConfig.FILTER_BY_DEV_ADDRESS cfg = true
     → member dev_address (FilterConfig.DEV_ADDRESSES cfg)
     → verdict = Ok true).

(** ** Sample inputs *)

(** [FilterConfig(FILTER_BY_DEV_ADDRESS=True)]. *)
Definition config_dev_enabled : FilterConfig.t :=
  let c := FilterConfig.config in
  FilterConfig.Build (FilterConfig.TARGET_HOST c)
    (FilterConfig.ROOM_NEW_PAIRS c) (FilterConfig.ROOM_UPDATE_PULSE c)
    (FilterConfig.BINANCE_ADDRESS c) (FilterConfig.KUCOIN_ADDRESS c)
    (FilterConfig.BYBIT_ADDRESS c) (FilterConfig.MEXC_ADDRESS c)
    (FilterConfig.DEV_ADDRESSES c) (FilterConfig.FUNDER_ADDRESSES c)
    true true false false.

(** [FilterConfig(FILTER_BY_FUNDING_WALLET=False)]: both criteria off. *)
Definition config_disabled : FilterConfig.t :=
  let c := FilterConfig.config in
  FilterConfig.Build (FilterConfig.TARGET_HOST c)
    (FilterConfig.ROOM_NEW_PAIRS c) (FilterConfig.ROOM_UPDATE_PULSE c)
    (FilterConfig.BINANCE_ADDRESS c) (FilterConfig.KUCOIN_ADDRESS c)
    (FilterConfig.BYBIT_ADDRESS c) (FilterConfig.MEXC_ADDRESS c)
    (FilterConfig.DEV_ADDRESSES c) (FilterConfig.FUNDER_ADDRESSES c)
    false false false false.

(** A funding object naming the given funding wallet. *)
Definition funding_from (wallet : string) : pyval :=
  PDict [("walletAddress", PStr "dev1");
         ("fundingWalletAddress", PStr wallet);
         ("signature", PStr "sig");
         ("amountSol", PInt 2);
         ("fundedAt", PStr "2025-01-01")].

(** A 40-slot pulse item of the given dev address and funding wallet. *)
Definition pulse_item (dev wallet : string) : pyval :=
  PList ([PStr "pair"; PStr "token"; PStr dev]
         ++ replicate 36 PNone ++ [funding_from wallet]).

(** A three-slot pulse item: no funding slot at all. *)
Definition short_item (dev : string) : pyval :=
  PList [PStr "pair"; PStr "token"; PStr dev].

(** An XHR pulse object of the given dev address and funding wallet. *)
Definition xhr_item (dev wallet : string) : pyval :=
  PDict [("pairAddress", PStr "pair"); ("devAddress", PStr dev);
         ("devWalletFunding", funding_from wallet)].

(** The library calls on the sample payloads: ASCII bytes decode and
    encode to themselves, [json.dumps] prints with its default
    separators, and [json.loads] reads back the sample payloads. *)
Definition sample_decode_utf8 (raw : string) : option string := Some raw.

Definition sample_encode_utf8 (text : string) : string := text.

Definition sample_b64encode (raw : string) : string := raw.

Definition dquote : string := String (ascii_of_nat 34) "".

Definition json_string (s : string) : string := dquote +:+ s +:+ dquote.

Fixpoint sample_json_dumps (v : pyval) : string :=
  match v with
  | PNone => "null"
  | PBool true => "true"
  | PBool false => "false"
  | PInt z => pretty z
  | PFloat _ => "0.0"
  | PStr s => json_string s
  | PList l =>
      "[" +:+ (fix items (l : list pyval) : string :=
                 match l with
                 | [] => ""
                 | x :: l' =>
                     sample_json_dumps x
                     +:+ match l' with [] => "" | _ => ", " +:+ items l' end
                 end) l +:+ "]"
  | PDict d =>
      "{" +:+ (fix items (d : list (string * pyval)) : string :=
                 match d with
                 | [] => ""
                 | (k, x) :: d' =>
                     json_string k +:+ ": " +:+ sample_json_dumps x
                     +:+ match d' with [] => "" | _ => ", " +:+ items d' end
                 end) d +:+ "}"
  end.

(** A [new_pairs] message. *)
Definition new_pairs_envelope : pyval :=
  PDict [("room", PStr "new_pairs");
         ("content", PDict [("token_name", PStr "Sample");
                            ("deployer_address", PStr "dev")])].

(** An [update_pulse_v2] message of two items; under the default
    configuration only the second one, funded from KuCoin, is kept. *)
Definition pulse_items : list pyval :=
  [pulse_item "a" "unknown";
   pulse_item "b" "BmFdpraQhkiDQE6SnfG5omcA1VwzqfXrwtNYBwWTymy6"].

Definition pulse_fields : list (string * pyval) :=
  [("room", PStr "update_pulse_v2"); ("content", PList pulse_items);
   ("seq", PInt 7)].

Definition pulse_envelope : pyval := PDict pulse_fields.

(** An [update_pulse_v2] message none of whose items is kept. *)
Definition pulse_envelope_unmatched : pyval :=
  PDict [("room", PStr "update_pulse_v2");
         ("content", PList [pulse_item "a" "unknown"])].

Definition sample_payloads : list pyval :=
  [new_pairs_envelope; pulse_envelope; pulse_envelope_unmatched;
   xhr_item "a" "unknown";
   xhr_item "b" "BmFdpraQhkiDQE6SnfG5omcA1VwzqfXrwtNYBwWTymy6";
   PDict []].

Definition sample_json_loads (text : string) : result pyval :=
  match List.find (λ v, String.eqb (sample_json_dumps v) text)
          sample_payloads with
  | Some v => Ok v
  | None => Raise JSONDecodeError
  end.

(** A server-to-client text frame, and the same payload as a binary
    frame. *)
Definition text_frame (payload : string) : WebSocketMessage.t :=
  WebSocketMessage.Build payload false true false.

Definition binary_frame (payload : string) : WebSocketMessage.t :=
  WebSocketMessage.Build payload false false false.

(** A WebSocket flow to the target host whose last message is [m]. *)
Definition websocket_flow (m : WebSocketMessage.t) : HTTPFlow.t :=
  HTTPFlow.Build (Some (Some "104.18.0.1")) "cluster.axiom.trade"
    "/" "GET" None (Some [text_frame "ping"; m]).

(** A [POST /pulse] flow to the target host with the given body. *)
Definition pulse_flow (body : string) : HTTPFlow.t :=
  HTTPFlow.Build (Some (Some "104.18.0.1")) "api.axiom.trade"
    "/pulse" "POST" (Some body) None.

(** ** A run of the addon *)

(** One invocation of a hook by the proxy. *)
Inductive hook_call : Type :=
| OnWebsocketMessage (flow : HTTPFlow.t)
| OnResponse (flow : HTTPFlow.t).

(** The counters of the addon after a sequence of hook invocations,
    each hook working on the counters the previous one left. *)
Definition run_hooks (decode_utf8 : string → option string)
    (encode_utf8 b64encode : string → string)
    (json_loads json_loads_bytes : string → result pyval)
    (json_dumps : pyval → string) (cfg : FilterConfig.t)
    (stats : FilterStats.t) (calls : list hook_call) : FilterStats.t :=
  foldl
    (λ s call,
       match call with
       | OnWebsocketMessage flow =>
           (AxiomTradeFilter.websocket_message decode_utf8 encode_utf8
              b64encode json_loads json_dumps cfg s flow).1
       | OnResponse flow =>
           (AxiomTradeFilter.response encode_utf8 json_loads_bytes
              json_dumps cfg s flow).1
       end)
    stats calls.

(** What a filter may do to a message: nothing, drop it, or replace
    the payload of a text frame. *)
Definition touched (message message' : WebSocketMessage.t) : Prop :=
  WebSocketMessage.from_client message'
  = WebSocketMessage.from_client message
  ∧ WebSocketMessage.is_text message' = WebSocketMessage.is_text message
  ∧ (WebSocketMessage.dropped message = true
     → WebSocketMessage.dropped message' = true)
  ∧ (WebSocketMessage.is_text message = false
     → WebSocketMessage.content message'
       = WebSocketMessage.content message).

(** * Properties *)

(** ** The exception monad *)

Lemma bind_Ok {A B} (a : A) (k : A → result B) : (Ok a ≫= k) = k a.
Proof. reflexivity. Qed.

Lemma bind_Raise {A B} (e : exn) (k : A → result B) :
  (Raise e ≫= k) = Raise e.
Proof. reflexivity. Qed.

Lemma bind_Ok_inv {A B} (m : result A) (k : A → result B) (b : B) :
  (m ≫= k) = Ok b → ∃ a, m = Ok a ∧ k a = Ok b.
Proof. destruct m as [a|e]; [eauto | discriminate]. Qed.

Lemma returns_Ok {A} (a : A) : returns (Ok a).
Proof. by exists a. Qed.

Lemma not_returns_Raise {A} (e : exn) : ¬ returns (@Raise A e).
Proof. intros [a Ha]. discriminate. Qed.

(** Strip the successful binds of a hypothesis [m ≫= k = Ok b]. *)
Ltac inv_bind H :=
  repeat match type of H with
  | (_ ≫= _) = Ok _ =>
      let a := fresh "a" in
      let Ha := fresh "Ha" in
      apply bind_Ok_inv in H as (a & Ha & H)
  end.

(** ** Strings *)

Definition occurs (needle hay : string) : Prop :=
  ∃ pre post, hay = pre +:+ needle +:+ post.

Lemma append_nil (s : string) : "" +:+ s = s.
Proof. reflexivity. Qed.

Lemma append_cons (c : ascii) (s t : string) :
  String c s +:+ t = String c (s +:+ t).
Proof. reflexivity. Qed.

Lemma prefix_spec (p s : string) :
  String.prefix p s = true ↔ ∃ post, s = p +:+ post.
Proof.
  revert s. induction p as [|c p IH]; intros [|d s]; simpl.
  - split; [intros _; by exists "" | done].
  - split; [intros _; by exists (String d s) | done].
  - split; [done | intros [post Hp]; discriminate].
  - destruct (Ascii.ascii_dec c d) as [->|Hne].
    + rewrite IH. split; intros [post Hp]; exists post.
      * by rewrite append_cons, <- Hp.
      * rewrite append_cons in Hp. by injection Hp.
    + split; [done |].
      intros [post Hp]. rewrite append_cons in Hp. injection Hp. congruence.
Qed.

Lemma str_contains_nil (needle : string) :
  str_contains needle "" = String.prefix needle "" || false.
Proof. reflexivity. Qed.

Lemma str_contains_cons (needle : string) (c : ascii) (hay : string) :
  str_contains needle (String c hay)
  = String.prefix needle (String c hay) || str_contains needle hay.
Proof. reflexivity. Qed.

Lemma str_contains_spec (needle hay : string) :
  str_contains needle hay = true ↔ occurs needle hay.
Proof.
  induction hay as [|c hay IH].
  - rewrite str_contains_nil, orb_false_r, prefix_spec. split.
    + intros [post Hp]. by exists "", post.
    + intros ([|d pre] & post & Hp); [by exists post | discriminate].
  - rewrite str_contains_cons, orb_true_iff, prefix_spec, IH. split.
    + intros [[post Hp] | (pre & post & Hp)].
      * by exists "", post.
      * exists (String c pre), post. by rewrite append_cons, <- Hp.
    + intros ([|d pre] & post & Hp).
      * left. by exists post.
      * right. exists pre, post. rewrite append_cons in Hp. by injection Hp.
Qed.

Lemma str_take_prefix (n : nat) (s : string) :
  ∃ rest, s = str_take n s +:+ rest.
Proof.
  revert s. induction n as [|n IH]; intros [|c s].
  - by exists "".
  - by exists (String c s).
  - by exists "".
  - destruct (IH s) as [rest Hr]. exists rest. simpl.
    by rewrite append_cons, <- Hr.
Qed.

Lemma str_take_length (n : nat) (s : string) :
  String.length (str_take n s) = n `min` String.length s.
Proof.
  revert s. induction n as [|n IH]; intros [|c s]; simpl; auto.
Qed.

Lemma str_lower_length (s : string) :
  String.length (str_lower s) = String.length s.
Proof. induction s; simpl; auto. Qed.

(** ** Decoding a list *)

Lemma slot_list (l : list pyval) (i : nat) (dflt : pyval) :
  slot (PList l) i dflt = Ok (default dflt (l !! i)).
Proof.
  unfold slot; simpl. case_bool_decide as Hi.
  - destruct (lookup_lt_is_Some_2 l i Hi) as [x Hx]. by rewrite Hx.
  - rewrite lookup_ge_None_2 by lia. done.
Qed.

Lemma from_dict_protocol_details (d : list (string * pyval)) :
  returns (ProtocolDetails.from_dict (PDict d)).
Proof. apply returns_Ok. Qed.

Lemma decode_protocol_details_list (l : list pyval) :
  UpdatePulseItem.decode_protocol_details (PList l)
  = match l !! 8 with
    | Some (PDict d) =>
        pd ← ProtocolDetails.from_dict (PDict d); Ok (Some pd)
    | _ => Ok None
    end.
Proof.
  unfold UpdatePulseItem.decode_protocol_details; simpl.
  case_bool_decide as Hn.
  - destruct (lookup_lt_is_Some_2 l 8 Hn) as [x Hx]. rewrite Hx; simpl.
    by destruct x.
  - by rewrite lookup_ge_None_2 by lia.
Qed.

Lemma decode_dev_wallet_funding_list (l : list pyval) :
  UpdatePulseItem.decode_dev_wallet_funding (PList l)
  = match l !! 39 with
    | Some x => if truthy x then DevWalletFunding.from_ws_array x else Ok None
    | None => Ok None
    end.
Proof.
  unfold UpdatePulseItem.decode_dev_wallet_funding; simpl.
  case_bool_decide as Hn.
  - destruct (lookup_lt_is_Some_2 l 39 Hn) as [x Hx]. by rewrite Hx.
  - by rewrite lookup_ge_None_2 by lia.
Qed.

(** A truthy argument of [from_ws_array] that is not a dict has no
    [get] method. *)
Lemma from_ws_array_not_dict (x : pyval) :
  truthy x = true → is_dict x = false →
  DevWalletFunding.from_ws_array x = Raise AttributeError.
Proof.
  intros Ht Hd. unfold DevWalletFunding.from_ws_array. rewrite Ht; simpl.
  by destruct x.
Qed.

Lemma from_xhr_not_dict (x : pyval) :
  truthy x = true → is_dict x = false →
  DevWalletFunding.from_xhr x = Raise AttributeError.
Proof.
  intros Ht Hd. unfold DevWalletFunding.from_xhr. rewrite Ht; simpl.
  by destruct x.
Qed.

Lemma from_ws_array_dict (d : list (string * pyval)) :
  returns (DevWalletFunding.from_ws_array (PDict d)).
Proof.
  unfold DevWalletFunding.from_ws_array.
  destruct (negb _); apply returns_Ok.
Qed.

Lemma from_xhr_dict (d : list (string * pyval)) :
  returns (DevWalletFunding.from_xhr (PDict d)).
Proof.
  unfold DevWalletFunding.from_xhr.
  destruct (negb _); apply returns_Ok.
Qed.

(** On a list, the plain fields are read without any failure: the
    decode is the two nested decodes followed by the constructor. *)
Lemma from_array_list (l : list pyval) :
  UpdatePulseItem.from_array (PList l)
  = (protocol_details ← UpdatePulseItem.decode_protocol_details (PList l);
     dev_wallet_funding ← UpdatePulseItem.decode_dev_wallet_funding (PList l);
     Ok (UpdatePulseItem.Build
           (default (PStr "") (l !! 0)) (default (PStr "") (l !! 1))
           (default (PStr "") (l !! 2)) (default (PStr "") (l !! 3))
           (default (PStr "") (l !! 4)) (default PNone (l !! 5))
           (default (PInt 0) (l !! 6)) (default (PStr "") (l !! 7))
           protocol_details
           (default PNone (l !! 9)) (default PNone (l !! 10))
           (default PNone (l !! 11)) (default PNone (l !! 12))
           (default float_zero (l !! 13)) (default float_zero (l !! 14))
           (default float_zero (l !! 15)) (default float_zero (l !! 16))
           (default float_zero (l !! 17)) (default float_zero (l !! 18))
           (default float_zero (l !! 19)) (default float_zero (l !! 20))
           (default float_zero (l !! 21)) (default float_zero (l !! 22))
           (default (PInt 0) (l !! 23)) (default (PInt 0) (l !! 24))
           (default (PInt 0) (l !! 25)) (default float_zero (l !! 26))
           (default float_zero (l !! 27)) (default (PInt 0) (l !! 28))
           (default (PInt 0) (l !! 29)) (default PNone (l !! 30))
           (default PNone (l !! 31)) (default PNone (l !! 32))
           (default PNone (l !! 33)) (default PNone (l !! 34))
           (default PNone (l !! 35)) (default (PList []) (l !! 36))
           (default PNone (l !! 37)) (default (PBool false) (l !! 38))
           dev_wallet_funding
           (default (PInt 0) (l !! 40)) (default PNone (l !! 41))
           (default PNone (l !! 42)))).
Proof.
  unfold UpdatePulseItem.from_array. rewrite !slot_list.
  destruct (UpdatePulseItem.decode_protocol_details (PList l)); [|done].
  destruct (UpdatePulseItem.decode_dev_wallet_funding (PList l)); done.
Qed.

Lemma returns_bind {A B} (m : result A) (k : A → result B) :
  returns (m ≫= k) ↔ ∃ a, m = Ok a ∧ returns (k a).
Proof.
  destruct m as [a|e]; simpl; split.
  - intros Hk. by exists a.
  - by intros (a' & [= <-] & Hk).
  - by intros ?%not_returns_Raise.
  - by intros (a' & [=] & _).
Qed.

Lemma decode_protocol_details_list_returns (l : list pyval) :
  returns (UpdatePulseItem.decode_protocol_details (PList l)).
Proof.
  rewrite decode_protocol_details_list.
  destruct (l !! 8) as [[]|]; apply returns_Ok.
Qed.

(** A list decodes exactly when slot 39 is absent, falsy or a dict. *)
Lemma from_array_list_returns (l : list pyval) :
  returns (UpdatePulseItem.from_array (PList l))
  ↔ ∀ x, l !! 39 = Some x → truthy x = true → is_dict x = true.
Proof.
  rewrite from_array_list.
  destruct (decode_protocol_details_list_returns l) as [pd ->].
  rewrite bind_Ok, returns_bind, decode_dev_wallet_funding_list. split.
  - intros (f & Hf & _) x Hx Ht. rewrite Hx, Ht in Hf.
    destruct (is_dict x) eqn:Hd; [done|].
    by rewrite (from_ws_array_not_dict x Ht Hd) in Hf.
  - intros Hdict.
    assert (returns (match l !! 39 with
      | Some x =>
          if truthy x then DevWalletFunding.from_ws_array x else Ok None
      | None => Ok None
      end)) as [f Hf].
    { destruct (l !! 39) as [x|] eqn:Hx; [|apply returns_Ok].
      destruct (truthy x) eqn:Ht; [|apply returns_Ok].
      specialize (Hdict x eq_refl Ht). destruct x; try discriminate.
      apply from_ws_array_dict. }
    exists f. split; [done | apply returns_Ok].
Qed.

(** Whenever a list decodes, every field at an index beyond the end of
    the list holds its default. *)
Lemma from_array_list_defaults (l : list pyval) (r : UpdatePulseItem.t) :
  UpdatePulseItem.from_array (PList l) = Ok r →
  ∀ i, length l ≤ i → i < 43 → fields r !! i = documented_defaults !! i.
Proof.
  rewrite from_array_list. intros H. inv_bind H. injection H as <-.
  assert (length l ≤ 8 → a = None) as Hpd.
  { intros Hl. rewrite decode_protocol_details_list in Ha.
    rewrite lookup_ge_None_2 in Ha by done. by injection Ha. }
  assert (length l ≤ 39 → a0 = None) as Hdwf.
  { intros Hl. rewrite decode_dev_wallet_funding_list in Ha0.
    rewrite lookup_ge_None_2 in Ha0 by done. by injection Ha0. }
  intros i Hle Hlt.
  do 43 (destruct i as [|i];
    [ simpl;
      first [ rewrite lookup_ge_None_2 by lia
            | rewrite Hpd by lia
            | rewrite Hdwf by lia ];
      reflexivity | ]).
  lia.
Qed.

(** Below index 39 nothing can fail: a list of at most 39 slots always
    decodes. *)
Lemma from_array_short_returns (l : list pyval) :
  length l ≤ 39 → returns (UpdatePulseItem.from_array (PList l)).
Proof.
  intros Hl. apply from_array_list_returns. intros x Hx.
  rewrite lookup_ge_None_2 in Hx by done. discriminate.
Qed.

(** Index 8 is type-checked: anything but a dict decodes to an absent
    [protocol_details]. *)
Lemma protocol_details_mismatch_absent (l : list pyval) (x : pyval)
    (r : UpdatePulseItem.t) :
  l !! 8 = Some x → is_dict x = false →
  UpdatePulseItem.from_array (PList l) = Ok r →
  UpdatePulseItem.protocol_details r = None.
Proof.
  intros Hx Hd. rewrite from_array_list. intros H. inv_bind H.
  injection H as <-. simpl.
  rewrite decode_protocol_details_list, Hx in Ha.
  destruct x; try discriminate; by injection Ha.
Qed.

(** A falsy value in slot 39 decodes to an absent [dev_wallet_funding]. *)
Lemma funding_falsy_absent (l : list pyval) (x : pyval)
    (r : UpdatePulseItem.t) :
  l !! 39 = Some x → truthy x = false →
  UpdatePulseItem.from_array (PList l) = Ok r →
  UpdatePulseItem.dev_wallet_funding r = None.
Proof.
  intros Hx Ht. rewrite from_array_list. intros H. inv_bind H.
  injection H as <-. simpl.
  rewrite decode_dev_wallet_funding_list, Hx, Ht in Ha0. by injection Ha0.
Qed.

Lemma from_dict_xhr_funding_mismatch (d : list (string * pyval)) (x : pyval) :
  dict_lookup d "devWalletFunding" = Some x →
  truthy x = true → is_dict x = false →
  XHRPulseResponse.from_dict (PDict d) = Raise AttributeError.
Proof.
  intros Hx Ht Hd.
  unfold XHRPulseResponse.from_dict, XHRPulseResponse.decode_dev_wallet_funding.
  simpl. rewrite Hx. rewrite bool_decide_true by eauto. simpl.
  by rewrite Ht, (from_xhr_not_dict x Ht Hd).
Qed.

(** C2 (error handling). The claim: a nested slot holding a value that
    is not a keyed object decodes to an absent field and the enclosing
    decode succeeds. The code checks the type at index 8 only
    ([protocol_details_mismatch_absent]). At index 39 and at key
    [devWalletFunding] it checks truthiness: a truthy value that is not
    a dict reaches [data.get] and the enclosing decode raises
    [AttributeError], for the positional and for the keyed decoder. *)
Theorem funding_type_mismatch_raises :
  (∀ (l : list pyval) (x : pyval),
     l !! 39 = Some x → truthy x = true → is_dict x = false →
     UpdatePulseItem.from_array (PList l) = Raise AttributeError)
  ∧ (∀ (d : list (string * pyval)) (x : pyval),
       dict_lookup d "devWalletFunding" = Some x →
       truthy x = true → is_dict x = false →
       XHRPulseResponse.from_dict (PDict d) = Raise AttributeError).
Proof.
  split; [|apply from_dict_xhr_funding_mismatch].
  intros l x Hx Ht Hd. rewrite from_array_list.
  destruct (decode_protocol_details_list_returns l) as [pd ->].
  rewrite bind_Ok, decode_dev_wallet_funding_list, Hx, Ht.
  by rewrite (from_ws_array_not_dict x Ht Hd).
Qed.

Lemma funding_type_mismatch_raises_witness :
  UpdatePulseItem.from_array (PList (replicate 39 PNone ++ [PStr "x"]))
  = Raise AttributeError
  ∧ XHRPulseResponse.from_dict (PDict [("devWalletFunding", PInt 7)])
    = Raise AttributeError.
Proof.
  split.
  - apply (proj1 funding_type_mismatch_raises _ (PStr "x")); reflexivity.
  - apply (proj2 funding_type_mismatch_raises _ (PInt 7)); reflexivity.
Defined.

(** C4 (safety). The claim: a list of length at most 43 never makes
    [from_array] raise. A list of length 40 whose slot 39 holds the
    number 1 raises [AttributeError]; lists of at most 39 slots always
    decode ([from_array_short_returns]) and the defaults hold whenever
    the decode returns ([from_array_list_defaults]). *)
Theorem from_array_length_40_raises :
  length (replicate 39 (PStr "") ++ [PInt 1]) = 40
  ∧ UpdatePulseItem.from_array (PList (replicate 39 (PStr "") ++ [PInt 1]))
    = Raise AttributeError.
Proof. split; reflexivity. Qed.

(** ** The filter policy *)

Lemma py_in_set_spec (x : pyval) (s : gset string) (b : bool) :
  py_in_set x s = Ok b → (b = true ↔ member x s).
Proof.
  unfold member. destruct x; simpl; intros [= <-];
    try (split; [done | by intros (a & [=] & _)]).
  rewrite bool_decide_eq_true. split.
  - intros Hin. by eexists.
  - by intros (a & [= <-] & Hin).
Qed.

Lemma py_in_set_member (x : pyval) (s : gset string) :
  member x s → py_in_set x s = Ok true.
Proof. intros (a & -> & Hin). simpl. by rewrite bool_decide_true. Qed.

Lemma py_in_set_returns (x : pyval) (s : gset string) :
  hashable x = true → returns (py_in_set x s).
Proof. destruct x; simpl; solve [discriminate | intros _; apply returns_Ok]. Qed.

Lemma py_in_set_unhashable (x : pyval) (s : gset string) :
  hashable x = false → py_in_set x s = Raise TypeError.
Proof. by destruct x. Qed.

Lemma dev_test_spec (cfg : FilterConfig.t) (dev_address : pyval) (b : bool) :
  (if FilterConfig.FILTER_BY_DEV_ADDRESS cfg
   then py_in_set dev_address (FilterConfig.DEV_ADDRESSES cfg)
   else Ok false) = Ok b →
  b = true ↔ FilterConfig.FILTER_BY_DEV_ADDRESS cfg = true
             ∧ member dev_address (FilterConfig.DEV_ADDRESSES cfg).
Proof.
  destruct (FilterConfig.FILTER_BY_DEV_ADDRESS cfg).
  - intros H%py_in_set_spec. rewrite H. split; [done | by intros [_ Hm]].
  - intros [= <-]. split; [done | by intros [? _]].
Qed.

Lemma funder_test_spec (cfg : FilterConfig.t)
    (dev_wallet_funding : option DevWalletFunding.t) (b : bool) :
  (if FilterConfig.FILTER_BY_FUNDING_WALLET cfg then
     match dev_wallet_funding with
     | Some f =>
         py_in_set (DevWalletFunding.funding_wallet_address f)
           (FilterConfig.FUNDER_ADDRESSES cfg)
     | None => Ok false
     end
   else Ok false) = Ok b →
  b = true ↔ FilterConfig.FILTER_BY_FUNDING_WALLET cfg = true
             ∧ ∃ f, dev_wallet_funding = Some f
                    ∧ member (DevWalletFunding.funding_wallet_address f)
                        (FilterConfig.FUNDER_ADDRESSES cfg).
Proof.
  destruct (FilterConfig.FILTER_BY_FUNDING_WALLET cfg).
  - destruct dev_wallet_funding as [f|].
    + intros H%py_in_set_spec. rewrite H. split.
      * intros Hm. split; [done | by exists f].
      * by intros (_ & f' & [= <-] & Hm).
    + intros [= <-]. split; [done | by intros (_ & f & [=] & _)].
  - intros [= <-]. split; [done | by intros [? _]].
Qed.

Lemma criteria_sound (cfg : FilterConfig.t) (dev_address : pyval)
    (dev_wallet_funding : option DevWalletFunding.t) (b : bool) :
  MessageFilter.criteria cfg dev_address dev_wallet_funding = Ok b →
  b = true ↔ keep_condition cfg dev_address dev_wallet_funding.
Proof.
  unfold MessageFilter.criteria, keep_condition. intros H.
  apply bind_Ok_inv in H as (by_dev & Hdev & H).
  apply dev_test_spec in Hdev. destruct by_dev.
  - injection H as <-. split; [intros _; left; by apply Hdev | done].
  - apply bind_Ok_inv in H as (by_funder & Hfund & H).
    apply funder_test_spec in Hfund.
    assert (b = by_funder) as -> by (destruct by_funder; congruence).
    split.
    + intros Hb. right. by apply Hfund.
    + intros [Hl | Hr]; [by apply Hdev in Hl | by apply Hfund].
Qed.

Lemma criteria_returns (cfg : FilterConfig.t) (dev_address : pyval)
    (dev_wallet_funding : option DevWalletFunding.t) :
  addresses_hashable dev_address dev_wallet_funding →
  returns (MessageFilter.criteria cfg dev_address dev_wallet_funding).
Proof.
  intros [Hdev Hfund]. unfold MessageFilter.criteria.
  apply returns_bind.
  assert (returns (if FilterConfig.FILTER_BY_DEV_ADDRESS cfg
                   then py_in_set dev_address (FilterConfig.DEV_ADDRESSES cfg)
                   else Ok false)) as [by_dev Hby].
  { destruct (FilterConfig.FILTER_BY_DEV_ADDRESS cfg);
      [by apply py_in_set_returns | apply returns_Ok]. }
  exists by_dev. split; [done|].
  destruct by_dev; [apply returns_Ok|].
  apply returns_bind.
  assert (returns (if FilterConfig.FILTER_BY_FUNDING_WALLET cfg then
                     match dev_wallet_funding with
                     | Some f =>
                         py_in_set (DevWalletFunding.funding_wallet_address f)
                           (FilterConfig.FUNDER_ADDRESSES cfg)
                     | None => Ok false
                     end
                   else Ok false)) as [by_funder Hbf].
  { destruct (FilterConfig.FILTER_BY_FUNDING_WALLET cfg);
      [|apply returns_Ok].
    destruct dev_wallet_funding as [f|]; [|apply returns_Ok].
    apply py_in_set_returns. by apply Hfund. }
  exists by_funder. split; [done|]. destruct by_funder; apply returns_Ok.
Qed.

Lemma criteria_disabled (cfg : FilterConfig.t) (dev_address : pyval)
    (dev_wallet_funding : option DevWalletFunding.t) :
  FilterConfig.FILTER_BY_DEV_ADDRESS cfg = false →
  FilterConfig.FILTER_BY_FUNDING_WALLET cfg = false →
  MessageFilter.criteria cfg dev_address dev_wallet_funding = Ok false.
Proof. intros Hd Hf. unfold MessageFilter.criteria. by rewrite Hd, Hf. Qed.

(** The dev-address test comes first: when it matches, the funding
    record is not looked at. *)
Lemma criteria_dev_first (cfg : FilterConfig.t) (dev_address : pyval)
    (dev_wallet_funding : option DevWalletFunding.t) :
  FilterConfig.FILTER_BY_DEV_ADDRESS cfg = true →
  member dev_address (FilterConfig.DEV_ADDRESSES cfg) →
  MessageFilter.criteria cfg dev_address dev_wallet_funding = Ok true.
Proof.
  intros Hd Hm. unfold MessageFilter.criteria.
  by rewrite Hd, (py_in_set_member _ _ Hm).
Qed.

(** Conversely an enabled dev-address test that cannot hash its operand
    raises before the funding test is reached. *)
Lemma criteria_dev_unhashable (cfg : FilterConfig.t) (dev_address : pyval)
    (dev_wallet_funding : option DevWalletFunding.t) :
  FilterConfig.FILTER_BY_DEV_ADDRESS cfg = true →
  hashable dev_address = false →
  MessageFilter.criteria cfg dev_address dev_wallet_funding = Raise TypeError.
Proof.
  intros Hd Hh. unfold MessageFilter.criteria.
  by rewrite Hd, (py_in_set_unhashable _ _ Hh).
Qed.

Lemma criteria_policy (cfg : FilterConfig.t) (dev_address : pyval)
    (dev_wallet_funding : option DevWalletFunding.t) :
  policy_verdict cfg (MessageFilter.criteria cfg dev_address dev_wallet_funding)
    dev_address dev_wallet_funding.
Proof.
  split; [|split; [|split]].
  - intros Hhash. destruct (criteria_returns cfg _ _ Hhash) as [b Hb].
    split; [by exists b|]. rewrite Hb.
    rewrite <- (criteria_sound _ _ _ _ Hb). split; congruence.
  - apply criteria_sound.
  - apply criteria_disabled.
  - apply criteria_dev_first.
Qed.

(** C1 (functional correctness). For every configuration, every decoded
    pulse-update item and every decoded XHR pulse record, the evaluator
    returns a verdict whenever the tested address fields are hashable
    (as every [str] is), and a returned verdict is [True] if and only if
    the dev-address criterion is enabled and the record's [dev_address]
    is in [DEV_ADDRESSES], or the funding-wallet criterion is enabled
    and the record has a [dev_wallet_funding] whose
    [funding_wallet_address] is in [FUNDER_ADDRESSES]. With both
    criteria disabled the verdict is [False], and a dev-address match
    decides [True] before the funding record is consulted. *)
Theorem evaluator_keeps_iff_criterion_matches (cfg : FilterConfig.t) :
  (∀ (item_array : pyval) (item : UpdatePulseItem.t),
     UpdatePulseItem.from_array item_array = Ok item →
     policy_verdict cfg
       (MessageFilter.should_keep_update_pulse_item cfg item_array)
       (UpdatePulseItem.dev_address item)
       (UpdatePulseItem.dev_wallet_funding item))
  ∧ (∀ (response_dict : pyval) (response : XHRPulseResponse.t),
       XHRPulseResponse.from_dict response_dict = Ok response →
       policy_verdict cfg
         (MessageFilter.should_keep_xhr_response cfg response_dict)
         (XHRPulseResponse.dev_address response)
         (XHRPulseResponse.dev_wallet_funding response)).
Proof.
  split.
  - intros item_array item Hdec.
    unfold MessageFilter.should_keep_update_pulse_item.
    rewrite Hdec, bind_Ok. apply criteria_policy.
  - intros response_dict response Hdec.
    unfold MessageFilter.should_keep_xhr_response.
    rewrite Hdec, bind_Ok. apply criteria_policy.
Qed.

Lemma evaluator_keeps_iff_criterion_matches_witness :
  MessageFilter.should_keep_update_pulse_item config_dev_enabled
    (short_item "asdsadasdsa") = Ok true
  ∧ MessageFilter.should_keep_xhr_response config_disabled
      (xhr_item "dev" "BmFdpraQhkiDQE6SnfG5omcA1VwzqfXrwtNYBwWTymy6")
    = Ok false
  ∧ returns (MessageFilter.should_keep_update_pulse_item FilterConfig.config
               (pulse_item "dev" "unknown")).
Proof.
  split; [|split].
  - destruct (proj1 (evaluator_keeps_iff_criterion_matches config_dev_enabled)
                (short_item "asdsadasdsa") _ eq_refl)
      as (_ & _ & _ & Hdev).
    apply Hdev; [reflexivity|].
    exists "asdsadasdsa". split; [reflexivity|].
    apply (bool_decide_unpack _). by vm_compute.
  - destruct (proj2 (evaluator_keeps_iff_criterion_matches config_disabled)
                (xhr_item "dev" "BmFdpraQhkiDQE6SnfG5omcA1VwzqfXrwtNYBwWTymy6")
                _ eq_refl)
      as (_ & _ & Hdis & _).
    apply Hdis; reflexivity.
  - destruct (proj1 (evaluator_keeps_iff_criterion_matches FilterConfig.config)
                (pulse_item "dev" "unknown") _ eq_refl)
      as (Hret & _ & _ & _).
    apply Hret. split; [reflexivity|].
    intros f [= <-]. reflexivity.
Defined.

(** ** The default configuration *)

Lemma default_funder_addresses :
  FilterConfig.FUNDER_ADDRESSES FilterConfig.config
  = {[ "BmFdpraQhkiDQE6SnfG5omcA1VwzqfXrwtNYBwWTymy6";
       "ASTyfSima4LLAdDgoFGkgqoKowG1LZFDr9fAQrg7iaJZ";
       "iGdFcQoyR2MwbXMHQskhmNsqddZ6rinsipHc4TNSdwu" ]}.
Proof. reflexivity. Qed.

Lemma default_funder_member (a : string) :
  a ∈ FilterConfig.FUNDER_ADDRESSES FilterConfig.config
  ↔ a = "BmFdpraQhkiDQE6SnfG5omcA1VwzqfXrwtNYBwWTymy6"
    ∨ a = "ASTyfSima4LLAdDgoFGkgqoKowG1LZFDr9fAQrg7iaJZ"
    ∨ a = "iGdFcQoyR2MwbXMHQskhmNsqddZ6rinsipHc4TNSdwu".
Proof.
  rewrite default_funder_addresses, !elem_of_union, !elem_of_singleton.
  tauto.
Qed.

Lemma criteria_default (dev_address : pyval)
    (dev_wallet_funding : option DevWalletFunding.t) :
  MessageFilter.criteria FilterConfig.config dev_address dev_wallet_funding
  = Ok true
  ↔ ∃ f a, dev_wallet_funding = Some f
           ∧ DevWalletFunding.funding_wallet_address f = PStr a
           ∧ a ∈ FilterConfig.FUNDER_ADDRESSES FilterConfig.config.
Proof.
  split.
  - intros H%criteria_sound.
    destruct (proj1 H eq_refl) as [[Hflag _] | (_ & f & -> & a & Ha & Hin)].
    + discriminate Hflag.
    + exists f, a. split; [reflexivity|]. split; assumption.
  - intros (f & a & -> & Ha & Hin). unfold MessageFilter.criteria.
    change (FilterConfig.FILTER_BY_DEV_ADDRESS FilterConfig.config) with false.
    change (FilterConfig.FILTER_BY_FUNDING_WALLET FilterConfig.config)
      with true.
    cbv iota. rewrite bind_Ok. cbv iota. rewrite Ha. cbn [py_in_set].
    by rewrite bool_decide_true.
Qed.

(** C10 (functional correctness). [FilterConfig()] has the dev-address
    criterion off, the funding-wallet criterion on and exactly the
    KuCoin, MEXC and Bybit addresses as funder addresses (the Binance
    address is defined but not a member). Under it either evaluator
    returns [True] exactly for the records that decode with a present
    [dev_wallet_funding] whose [funding_wallet_address] is one of those
    three strings. *)
Theorem default_config_keeps_three_exchanges :
  FilterConfig.FILTER_BY_DEV_ADDRESS FilterConfig.config = false
  ∧ FilterConfig.FILTER_BY_FUNDING_WALLET FilterConfig.config = true
  ∧ FilterConfig.FUNDER_ADDRESSES FilterConfig.config
    = {[ "BmFdpraQhkiDQE6SnfG5omcA1VwzqfXrwtNYBwWTymy6";
         "ASTyfSima4LLAdDgoFGkgqoKowG1LZFDr9fAQrg7iaJZ";
         "iGdFcQoyR2MwbXMHQskhmNsqddZ6rinsipHc4TNSdwu" ]}
  ∧ FilterConfig.BINANCE_ADDRESS FilterConfig.config
    = "5tzFkiKscXHK5ZXCGbXZxdw7gTjjD1mBwuoFbhUvuAi9"
  ∧ (FilterConfig.BINANCE_ADDRESS FilterConfig.config
     ∉ FilterConfig.FUNDER_ADDRESSES FilterConfig.config)
  ∧ (∀ item_array : pyval,
       MessageFilter.should_keep_update_pulse_item FilterConfig.config
         item_array = Ok true
       ↔ ∃ item f a,
           UpdatePulseItem.from_array item_array = Ok item
           ∧ UpdatePulseItem.dev_wallet_funding item = Some f
           ∧ DevWalletFunding.funding_wallet_address f = PStr a
           ∧ (a = "BmFdpraQhkiDQE6SnfG5omcA1VwzqfXrwtNYBwWTymy6"
              ∨ a = "ASTyfSima4LLAdDgoFGkgqoKowG1LZFDr9fAQrg7iaJZ"
              ∨ a = "iGdFcQoyR2MwbXMHQskhmNsqddZ6rinsipHc4TNSdwu"))
  ∧ (∀ response_dict : pyval,
       MessageFilter.should_keep_xhr_response FilterConfig.config
         response_dict = Ok true
       ↔ ∃ response f a,
           XHRPulseResponse.from_dict response_dict = Ok response
           ∧ XHRPulseResponse.dev_wallet_funding response = Some f
           ∧ DevWalletFunding.funding_wallet_address f = PStr a
           ∧ (a = "BmFdpraQhkiDQE6SnfG5omcA1VwzqfXrwtNYBwWTymy6"
              ∨ a = "ASTyfSima4LLAdDgoFGkgqoKowG1LZFDr9fAQrg7iaJZ"
              ∨ a = "iGdFcQoyR2MwbXMHQskhmNsqddZ6rinsipHc4TNSdwu")).
Proof.
  split; [reflexivity|]. split; [reflexivity|]. split; [reflexivity|].
  split; [reflexivity|]. split.
  { rewrite default_funder_member. intros [H | [H | H]]; discriminate H. }
  split.
  - intros item_array.
    unfold MessageFilter.should_keep_update_pulse_item. split.
    + intros H. apply bind_Ok_inv in H as (item & Hdec & H).
      apply criteria_default in H as (f & a & Hf & Ha & Hin).
      apply default_funder_member in Hin.
      exists item, f, a. repeat split; assumption.
    + intros (item & f & a & Hdec & Hf & Ha & Hin).
      rewrite Hdec, bind_Ok. apply criteria_default.
      apply default_funder_member in Hin.
      exists f, a. repeat split; assumption.
  - intros response_dict.
    unfold MessageFilter.should_keep_xhr_response. split.
    + intros H. apply bind_Ok_inv in H as (response & Hdec & H).
      apply criteria_default in H as (f & a & Hf & Ha & Hin).
      apply default_funder_member in Hin.
      exists response, f, a. repeat split; assumption.
    + intros (response & f & a & Hdec & Hf & Ha & Hin).
      rewrite Hdec, bind_Ok. apply criteria_default.
      apply default_funder_member in Hin.
      exists f, a. repeat split; assumption.
Qed.

Lemma default_config_keeps_three_exchanges_witness :
  MessageFilter.should_keep_update_pulse_item FilterConfig.config
    (pulse_item "dev" "iGdFcQoyR2MwbXMHQskhmNsqddZ6rinsipHc4TNSdwu")
  = Ok true
  ∧ MessageFilter.should_keep_xhr_response FilterConfig.config
      (xhr_item "dev" "ASTyfSima4LLAdDgoFGkgqoKowG1LZFDr9fAQrg7iaJZ")
    = Ok true.
Proof.
  destruct default_config_keeps_three_exchanges
    as (_ & _ & _ & _ & _ & Hpulse & Hxhr).
  split.
  - apply Hpulse. eexists _, _, _.
    split; [reflexivity|]. split; [reflexivity|]. split; [reflexivity|].
    right; right; reflexivity.
  - apply Hxhr. eexists _, _, _.
    split; [reflexivity|]. split; [reflexivity|]. split; [reflexivity|].
    right; left; reflexivity.
Defined.

(** ** The content rewriter *)

Section Comprehension.

Context {A : Type} (p : A → result bool).

Lemma comprehension_if_filter (l kept : list A) :
  comprehension_if p l = Ok kept →
  kept = List.filter (λ x, is_keep (p x)) l.
Proof.
  revert kept. induction l as [|x l IH]; intros kept; simpl.
  - by intros [= <-].
  - intros H. apply bind_Ok_inv in H as (b & Hb & H).
    apply bind_Ok_inv in H as (rest & Hrest & H).
    injection H as <-. rewrite Hb, (IH rest Hrest). by destruct b.
Qed.

Lemma comprehension_if_returns (l : list A) :
  returns (comprehension_if p l) ↔ Forall (λ x, returns (p x)) l.
Proof.
  induction l as [|x l IH]; simpl.
  - split; [constructor | intros _; apply returns_Ok].
  - rewrite Forall_cons, <- IH, returns_bind. split.
    + intros (b & Hb & Hk). apply returns_bind in Hk as (rest & Hrest & _).
      split; [by exists b | by exists rest].
    + intros [[b Hb] [rest Hrest]]. exists b. split; [done|].
      rewrite Hrest. apply returns_Ok.
Qed.

Lemma filter_keep_sublist (l : list A) :
  List.filter (λ x, is_keep (p x)) l `sublist_of` l.
Proof.
  induction l as [|x l IH]; simpl; [constructor|].
  destruct (is_keep (p x)); by constructor.
Qed.

Lemma filter_keep_Forall (l : list A) :
  Forall (λ x, p x = Ok true) (List.filter (λ x, is_keep (p x)) l).
Proof.
  induction l as [|x l IH]; simpl; [constructor|].
  destruct (p x) as [[]|] eqn:Hx; simpl; [by constructor | done | done].
Qed.

(** What the specification asks of a rewritten content list. *)
Lemma comprehension_if_kept (l kept : list A) :
  comprehension_if p l = Ok kept →
  kept = List.filter (λ x, is_keep (p x)) l
  ∧ kept `sublist_of` l
  ∧ length kept ≤ length l
  ∧ Forall (λ x, p x = Ok true) kept.
Proof.
  intros ->%comprehension_if_filter. split; [done|].
  split; [apply filter_keep_sublist|].
  split; [apply sublist_length, filter_keep_sublist|].
  apply filter_keep_Forall.
Qed.

End Comprehension.

(** C5 (functional correctness). The rewritten content of either filter
    is the input filtered by "the evaluator returns [True]": the same
    elements in the same order, hence a sublist of the input, no longer
    than it, and each kept element has verdict [True]. The rewritten
    content exists exactly when the evaluator returns a verdict on every
    element. *)
Theorem rewritten_content_is_kept_subsequence (cfg : FilterConfig.t) :
  (∀ content kept : list pyval,
     MessageFilter.filter_update_pulse_content cfg content = Ok kept →
     kept = List.filter
              (λ item,
                 is_keep (MessageFilter.should_keep_update_pulse_item cfg item))
              content
     ∧ kept `sublist_of` content
     ∧ length kept ≤ length content
     ∧ Forall (λ item,
                 MessageFilter.should_keep_update_pulse_item cfg item = Ok true)
         kept)
  ∧ (∀ content : list pyval,
       returns (MessageFilter.filter_update_pulse_content cfg content)
       ↔ Forall (λ item,
                   returns
                     (MessageFilter.should_keep_update_pulse_item cfg item))
           content)
  ∧ (∀ responses kept : list pyval,
       MessageFilter.filter_xhr_responses cfg responses = Ok kept →
       kept = List.filter
                (λ resp,
                   is_keep (MessageFilter.should_keep_xhr_response cfg resp))
                responses
       ∧ kept `sublist_of` responses
       ∧ length kept ≤ length responses
       ∧ Forall (λ resp,
                   MessageFilter.should_keep_xhr_response cfg resp = Ok true)
           kept)
  ∧ (∀ responses : list pyval,
       returns (MessageFilter.filter_xhr_responses cfg responses)
       ↔ Forall (λ resp,
                   returns (MessageFilter.should_keep_xhr_response cfg resp))
           responses).
Proof.
  split; [|split; [|split]].
  - intros content kept. apply comprehension_if_kept.
  - intros content. apply comprehension_if_returns.
  - intros responses kept. apply comprehension_if_kept.
  - intros responses. apply comprehension_if_returns.
Qed.

Lemma rewritten_content_is_kept_subsequence_witness :
  let kucoin := "BmFdpraQhkiDQE6SnfG5omcA1VwzqfXrwtNYBwWTymy6" in
  let content :=
    [pulse_item "a" "unknown"; pulse_item "b" kucoin; short_item "c"] in
  let responses := [xhr_item "a" kucoin; xhr_item "b" "unknown"] in
  MessageFilter.filter_update_pulse_content FilterConfig.config content
  = Ok [pulse_item "b" kucoin]
  ∧ length [pulse_item "b" kucoin] ≤ length content
  ∧ MessageFilter.filter_xhr_responses FilterConfig.config responses
    = Ok [xhr_item "a" kucoin]
  ∧ length [xhr_item "a" kucoin] ≤ length responses.
Proof.
  intros kucoin content responses.
  destruct (rewritten_content_is_kept_subsequence FilterConfig.config)
    as (Hpulse & _ & Hxhr & _).
  assert (MessageFilter.filter_update_pulse_content FilterConfig.config content
          = Ok [pulse_item "b" kucoin]) as Ep by (vm_compute; reflexivity).
  assert (MessageFilter.filter_xhr_responses FilterConfig.config responses
          = Ok [xhr_item "a" kucoin]) as Ex by (vm_compute; reflexivity).
  split; [exact Ep|]. split; [exact (proj1 (proj2 (proj2 (Hpulse _ _ Ep))))|].
  split; [exact Ex|]. exact (proj1 (proj2 (proj2 (Hxhr _ _ Ex)))).
Defined.

(** ** The counters *)

Lemma apply_call_invariant (s : FilterStats.t) (c : stats_call) :
  stats_invariant s → call_in_range c → stats_invariant (apply_call s c).
Proof.
  unfold stats_invariant. intros (Hp & Hx & Hn) Hc.
  destruct c as [total filtered | total filtered | []]; simpl in *; lia.
Qed.

Lemma run_calls_invariant (s : FilterStats.t) (cs : list stats_call) :
  stats_invariant s → Forall call_in_range cs →
  stats_invariant (run_calls s cs).
Proof.
  intros Hs Hcs. revert s Hs.
  induction Hcs as [|c cs Hc Hcs IH]; intros s Hs; simpl; [done|].
  apply IH. by apply apply_call_invariant.
Qed.

Lemma init_invariant : stats_invariant FilterStats.init.
Proof. unfold stats_invariant; simpl; lia. Qed.

Lemma reset_invariant (s : FilterStats.t) :
  stats_invariant (FilterStats.reset s).
Proof. unfold stats_invariant; simpl; lia. Qed.

(** C8, as stated, fails: the record calls take any two integers, and
    one call with [filtered > total] on fresh counters breaks
    [kept_sum <= total_sum]. *)
Lemma stats_invariant_needs_range :
  ¬ (∀ cs : list stats_call,
       stats_invariant (run_calls FilterStats.init cs)).
Proof.
  intros H. specialize (H [RecordUpdatePulse 0 1]).
  destruct H as ((_ & Hle) & _). simpl in Hle. lia.
Qed.

(** C8 (invariant), amended. Starting from fresh or reset counters,
    after any sequence of record calls each of which is given
    [0 <= filtered <= total] (for [record_new_pair] any flag), every
    category satisfies [0 <= kept_sum <= total_sum]. *)
Theorem stats_invariant_of_ranged_calls (s0 : FilterStats.t)
    (cs : list stats_call) :
  s0 = FilterStats.init ∨ (∃ s, s0 = FilterStats.reset s) →
  Forall call_in_range cs →
  stats_invariant (run_calls s0 cs).
Proof.
  intros Hs0 Hcs. apply run_calls_invariant; [|done].
  destruct Hs0 as [-> | [s ->]];
    [apply init_invariant | apply reset_invariant].
Qed.

Lemma stats_invariant_of_ranged_calls_witness :
  stats_invariant
    (run_calls FilterStats.init
       [RecordUpdatePulse 3 1; RecordXhr 1 0; RecordNewPair true;
        RecordUpdatePulse 2 2]).
Proof.
  apply stats_invariant_of_ranged_calls.
  - left; reflexivity.
  - repeat constructor; simpl; lia.
Defined.

(** ** The classifier *)

Lemma str_contains_false (needle hay : string) :
  str_contains needle hay = false ↔ ¬ occurs needle hay.
Proof.
  rewrite <- str_contains_spec. by destruct (str_contains needle hay).
Qed.

Section HookProperties.

Variable decode_utf8 : string → option string.
Variable encode_utf8 : string → string.
Variable b64encode : string → string.
Variable json_loads : string → result pyval.
Variable json_loads_bytes : string → result pyval.
Variable json_dumps : pyval → string.
Variable cfg : FilterConfig.t.

Local Abbreviation room_of := (AxiomTradeFilter._get_room_name cfg).
Local Abbreviation text_of :=
  (AxiomTradeFilter._decode_message_content decode_utf8 b64encode).
Local Abbreviation on_message :=
  (AxiomTradeFilter.websocket_message decode_utf8 encode_utf8 b64encode
     json_loads json_dumps cfg).

Lemma get_room_name_cases (text : string) :
  let start := str_take 50 (str_lower text) in
  (occurs (FilterConfig.ROOM_NEW_PAIRS cfg) start
   → room_of text = Some (FilterConfig.ROOM_NEW_PAIRS cfg))
  ∧ (¬ occurs (FilterConfig.ROOM_NEW_PAIRS cfg) start
     → occurs (FilterConfig.ROOM_UPDATE_PULSE cfg) start
     → room_of text = Some (FilterConfig.ROOM_UPDATE_PULSE cfg))
  ∧ (¬ occurs (FilterConfig.ROOM_NEW_PAIRS cfg) start
     → ¬ occurs (FilterConfig.ROOM_UPDATE_PULSE cfg) start
     → room_of text = None).
Proof.
  intros start. unfold AxiomTradeFilter._get_room_name. fold start.
  split; [|split].
  - intros ->%str_contains_spec. done.
  - intros ->%str_contains_false ->%str_contains_spec. done.
  - intros ->%str_contains_false ->%str_contains_false. done.
Qed.

(** An unclassified message is not touched by the hook. *)
Lemma websocket_message_unclassified (stats : FilterStats.t)
    (flow : HTTPFlow.t) (messages : list WebSocketMessage.t)
    (message : WebSocketMessage.t) :
  HTTPFlow.websocket flow = Some messages →
  last messages = Some message →
  room_of (text_of (WebSocketMessage.content message)) = None →
  on_message stats flow = (stats, flow).
Proof.
  intros Hws Hlast Hroom. unfold AxiomTradeFilter.websocket_message.
  rewrite Hws, Hlast, Hroom.
  destruct (negb _); [done|].
  destruct (WebSocketMessage.from_client message); [done|].
  by rewrite !bool_decide_false by done.
Qed.

End HookProperties.

Lemma get_room_name_default (text : string) :
  let start := str_take 50 (str_lower text) in
  let room := AxiomTradeFilter._get_room_name FilterConfig.config text in
  (room = Some "new_pairs" ↔ occurs "new_pairs" start)
  ∧ (room = Some "update_pulse_v2"
     ↔ ¬ occurs "new_pairs" start ∧ occurs "update_pulse_v2" start)
  ∧ (room = None
     ↔ ¬ occurs "new_pairs" start ∧ ¬ occurs "update_pulse_v2" start).
Proof.
  intros start room. subst room.
  unfold AxiomTradeFilter._get_room_name. fold start.
  change (FilterConfig.ROOM_NEW_PAIRS FilterConfig.config) with "new_pairs".
  change (FilterConfig.ROOM_UPDATE_PULSE FilterConfig.config)
    with "update_pulse_v2".
  rewrite <- !str_contains_false, <- !str_contains_spec.
  destruct (str_contains "new_pairs" start),
    (str_contains "update_pulse_v2" start);
    (split; [|split]); split; try discriminate; try tauto.
  all: intros [H1 H2]; discriminate.
Qed.

(** C9 (functional correctness). [_get_room_name] looks at the first 50
    characters of the lower-cased text: it returns the new-pairs tag
    when that tag occurs there, otherwise the update-pulse tag when
    that one occurs there, otherwise [None]; with the default tags
    ["new_pairs"] and ["update_pulse_v2"] each answer is returned in
    exactly its case. A message classified [None] leaves the hook with
    the counters and the flow unchanged. *)
Theorem room_classified_by_first_50_characters :
  (∀ (cfg : FilterConfig.t) (text : string),
     let start := str_take 50 (str_lower text) in
     (occurs (FilterConfig.ROOM_NEW_PAIRS cfg) start
      → AxiomTradeFilter._get_room_name cfg text
        = Some (FilterConfig.ROOM_NEW_PAIRS cfg))
     ∧ (¬ occurs (FilterConfig.ROOM_NEW_PAIRS cfg) start
        → occurs (FilterConfig.ROOM_UPDATE_PULSE cfg) start
        → AxiomTradeFilter._get_room_name cfg text
          = Some (FilterConfig.ROOM_UPDATE_PULSE cfg))
     ∧ (¬ occurs (FilterConfig.ROOM_NEW_PAIRS cfg) start
        → ¬ occurs (FilterConfig.ROOM_UPDATE_PULSE cfg) start
        → AxiomTradeFilter._get_room_name cfg text = None))
  ∧ (∀ text : string,
       let start := str_take 50 (str_lower text) in
       let room := AxiomTradeFilter._get_room_name FilterConfig.config text in
       (room = Some "new_pairs" ↔ occurs "new_pairs" start)
       ∧ (room = Some "update_pulse_v2"
          ↔ ¬ occurs "new_pairs" start ∧ occurs "update_pulse_v2" start)
       ∧ (room = None
          ↔ ¬ occurs "new_pairs" start ∧ ¬ occurs "update_pulse_v2" start))
  ∧ (∀ (decode_utf8 : string → option string)
       (encode_utf8 b64encode : string → string)
       (json_loads : string → result pyval) (json_dumps : pyval → string)
       (cfg : FilterConfig.t) (stats : FilterStats.t) (flow : HTTPFlow.t)
       (messages : list WebSocketMessage.t) (message : WebSocketMessage.t),
       HTTPFlow.websocket flow = Some messages →
       last messages = Some message →
       AxiomTradeFilter._get_room_name cfg
         (AxiomTradeFilter._decode_message_content decode_utf8 b64encode
            (WebSocketMessage.content message)) = None →
       AxiomTradeFilter.websocket_message decode_utf8 encode_utf8 b64encode
         json_loads json_dumps cfg stats flow = (stats, flow)).
Proof.
  split; [|split].
  - intros cfg text. apply get_room_name_cases.
  - intros text. apply get_room_name_default.
  - intros. by eapply websocket_message_unclassified.
Qed.

Lemma room_classified_by_first_50_characters_witness :
  AxiomTradeFilter._get_room_name FilterConfig.config
    (sample_json_dumps pulse_envelope) = Some "update_pulse_v2"
  ∧ AxiomTradeFilter.websocket_message sample_decode_utf8
      sample_encode_utf8 sample_b64encode sample_json_loads
      sample_json_dumps FilterConfig.config FilterStats.init
      (websocket_flow (text_frame "pong"))
    = (FilterStats.init, websocket_flow (text_frame "pong")).
Proof.
  destruct room_classified_by_first_50_characters as (Hcases & _ & Hnone).
  split.
  - apply (Hcases FilterConfig.config (sample_json_dumps pulse_envelope)).
    + apply str_contains_false. reflexivity.
    + apply str_contains_spec. reflexivity.
  - eapply Hnone; reflexivity.
Defined.

(** ** The WebSocket hook *)

Section MessageProperties.

Variable decode_utf8 : string → option string.
Variable encode_utf8 : string → string.
Variable b64encode : string → string.
Variable json_loads : string → result pyval.
Variable json_dumps : pyval → string.
Variable cfg : FilterConfig.t.

(** The new-pairs filter never drops: it leaves the message as it is
    and at most counts it as kept. *)
Lemma filter_new_pairs_message_keeps (stats : FilterStats.t)
    (message : WebSocketMessage.t) (text : string) :
  ∃ stats',
    AxiomTradeFilter._filter_new_pairs_message json_loads cfg stats message
      text = (stats', message)
    ∧ (stats' = stats ∨ stats' = FilterStats.record_new_pair stats true).
Proof.
  unfold AxiomTradeFilter._filter_new_pairs_message,
    AxiomTradeFilter._filter_new_pairs_body.
  destruct (json_loads text) as [data|e]; [|by eexists; eauto].
  rewrite bind_Ok.
  destruct (py_contains data "content") as [[]|e];
    [|by eexists; eauto|by eexists; eauto].
  rewrite bind_Ok. cbn [negb].
  destruct (py_getitem_str data "content") as [content|e];
    by eexists; eauto.
Qed.

(** C3 (functional correctness). The claim: a [new_pairs] message, kept
    by the policy, is never suppressed. [should_keep_new_pair] does
    return [True] on every content, but the hook calls [message.drop()]
    after the new-pairs filter whatever that filter decided: every
    server message of the target host classified as [new_pairs] leaves
    the hook dropped. *)
Theorem new_pairs_message_is_dropped (stats : FilterStats.t)
    (flow : HTTPFlow.t) (messages : list WebSocketMessage.t)
    (message : WebSocketMessage.t) :
  AxiomTradeFilter._is_target_host cfg flow = true →
  HTTPFlow.websocket flow = Some messages →
  last messages = Some message →
  WebSocketMessage.from_client message = false →
  AxiomTradeFilter._get_room_name cfg
    (AxiomTradeFilter._decode_message_content decode_utf8 b64encode
       (WebSocketMessage.content message))
  = Some (FilterConfig.ROOM_NEW_PAIRS cfg) →
  FilterConfig.ROOM_NEW_PAIRS cfg ≠ FilterConfig.ROOM_UPDATE_PULSE cfg →
  (∀ content, MessageFilter.should_keep_new_pair cfg content = true)
  ∧ ∃ stats' flow' message',
      AxiomTradeFilter.websocket_message decode_utf8 encode_utf8 b64encode
        json_loads json_dumps cfg stats flow = (stats', flow')
      ∧ (HTTPFlow.websocket flow' ≫= last) = Some message'
      ∧ WebSocketMessage.dropped message' = true
      ∧ WebSocketMessage.content message' = WebSocketMessage.content message.
Proof.
  intros Hhost Hws Hlast Hfrom Hroom Hne. split; [done|].
  unfold AxiomTradeFilter.websocket_message.
  rewrite Hhost, Hws, Hlast, Hfrom, Hroom. cbn [negb].
  rewrite bool_decide_false by congruence.
  rewrite bool_decide_true by done.
  destruct (filter_new_pairs_message_keeps stats message
              (AxiomTradeFilter._decode_message_content decode_utf8 b64encode
                 (WebSocketMessage.content message))) as (stats' & -> & _).
  eexists stats', _, (WebSocketMessage.drop message).
  split; [reflexivity|]. split; [|done].
  unfold replace_last. cbn [HTTPFlow.websocket HTTPFlow.with_messages].
  cbn [mbind option_bind]. apply last_snoc.
Qed.

End MessageProperties.

Lemma new_pairs_message_is_dropped_witness :
  let flow :=
    websocket_flow (text_frame (sample_json_dumps new_pairs_envelope)) in
  ∃ stats' flow' message',
    AxiomTradeFilter.websocket_message sample_decode_utf8 sample_encode_utf8
      sample_b64encode sample_json_loads sample_json_dumps
      FilterConfig.config FilterStats.init flow = (stats', flow')
    ∧ (HTTPFlow.websocket flow' ≫= last) = Some message'
    ∧ WebSocketMessage.dropped message' = true
    ∧ WebSocketMessage.content message'
      = sample_json_dumps new_pairs_envelope.
Proof.
  intros flow.
  refine (proj2 (new_pairs_message_is_dropped sample_decode_utf8
                   sample_encode_utf8 sample_b64encode sample_json_loads
                   sample_json_dumps FilterConfig.config FilterStats.init
                   flow _ (text_frame (sample_json_dumps new_pairs_envelope))
                   _ _ _ _ _ _)); try reflexivity.
  discriminate.
Defined.

(** ** Re-encoding an update-pulse envelope *)

Lemma dict_set_lookup_eq (d : list (string * pyval)) (key : string)
    (v : pyval) :
  dict_lookup (dict_set d key v) key = Some v.
Proof.
  induction d as [|[k w] d IH]; simpl.
  - by rewrite String.eqb_refl.
  - destruct (String.eqb k key) eqn:E; simpl; by rewrite E.
Qed.

Lemma dict_set_lookup_ne (d : list (string * pyval)) (key other : string)
    (v : pyval) :
  other ≠ key →
  dict_lookup (dict_set d key v) other = dict_lookup d other.
Proof.
  intros Hne. induction d as [|[k w] d IH]; simpl.
  - by rewrite (proj2 (String.eqb_neq key other)).
  - destruct (String.eqb k key) eqn:E; simpl.
    + apply String.eqb_eq in E as ->.
      by rewrite (proj2 (String.eqb_neq key other)).
    + by rewrite IH.
Qed.

(** Replacing the value of a key that is present keeps every key at
    its position. *)
Lemma dict_set_keys (d : list (string * pyval)) (key : string) (v : pyval) :
  is_Some (dict_lookup d key) →
  (dict_set d key v).*1 = d.*1.
Proof.
  induction d as [|[k w] d IH]; cbn [dict_set dict_lookup].
  - by intros [? ?].
  - destruct (String.eqb k key) eqn:E; rewrite !fmap_cons; [done|].
    intros H. by rewrite IH.
Qed.

Lemma py_contains_dict (d : list (string * pyval)) (key : string) :
  py_contains (PDict d) key = Ok (bool_decide (is_Some (dict_lookup d key))).
Proof. reflexivity. Qed.

Lemma py_getitem_str_dict (d : list (string * pyval)) (key : string)
    (x : pyval) :
  dict_lookup d key = Some x → py_getitem_str (PDict d) key = Ok x.
Proof. intros H. simpl. by rewrite H. Qed.

Section RewriteProperties.

Variable encode_utf8 : string → string.
Variable json_loads : string → result pyval.
Variable json_loads_bytes : string → result pyval.
Variable json_dumps : pyval → string.
Variable cfg : FilterConfig.t.

Lemma filter_update_pulse_message_envelope (stats : FilterStats.t)
    (message : WebSocketMessage.t) (text : string)
    (d : list (string * pyval)) (items kept : list pyval) :
  json_loads text = Ok (PDict d) →
  dict_lookup d "content" = Some (PList items) →
  MessageFilter.filter_update_pulse_content cfg items = Ok kept →
  AxiomTradeFilter._filter_update_pulse_message encode_utf8 json_loads
    json_dumps cfg stats message text
  = (FilterStats.record_update_pulse stats (Z.of_nat (length items))
       (Z.of_nat (length kept)),
     match kept with
     | [] => WebSocketMessage.drop message
     | _ :: _ =>
         if WebSocketMessage.is_text message then
           WebSocketMessage.with_content message
             (encode_utf8
                (json_dumps (PDict (dict_set d "content" (PList kept)))))
         else message
     end).
Proof.
  intros Hloads Hcontent Hkept.
  unfold AxiomTradeFilter._filter_update_pulse_message,
    AxiomTradeFilter._filter_update_pulse_body.
  rewrite Hloads, bind_Ok, py_contains_dict, bool_decide_true by eauto.
  rewrite bind_Ok. cbn [negb].
  rewrite (py_getitem_str_dict _ _ _ Hcontent), bind_Ok, Hkept, bind_Ok.
  destruct kept as [|item kept]; [done|].
  cbn [length Nat.eqb py_setitem_str]. rewrite bind_Ok.
  by destruct (WebSocketMessage.is_text message).
Qed.

(** C6 (frame effect), amended. For an envelope whose content list is
    filtered to [kept]: when [kept] is empty the message is dropped and
    its payload is not rewritten; when [kept] is non-empty and the
    message is a text frame its payload becomes the envelope re-encoded
    with [content] replaced by [kept], every other key keeping its value
    and its position; when [kept] is non-empty and the message is not a
    text frame the message is left as it was. *)
Theorem update_pulse_envelope_rewritten (stats : FilterStats.t)
    (message : WebSocketMessage.t) (text : string)
    (d : list (string * pyval)) (items kept : list pyval) :
  json_loads text = Ok (PDict d) →
  dict_lookup d "content" = Some (PList items) →
  MessageFilter.filter_update_pulse_content cfg items = Ok kept →
  let message' :=
    (AxiomTradeFilter._filter_update_pulse_message encode_utf8 json_loads
       json_dumps cfg stats message text).2 in
  let d' := dict_set d "content" (PList kept) in
  (kept = [] → message' = WebSocketMessage.drop message)
  ∧ (kept ≠ [] → WebSocketMessage.is_text message = true →
     message'
     = WebSocketMessage.with_content message
         (encode_utf8 (json_dumps (PDict d')))
     ∧ WebSocketMessage.dropped message'
       = WebSocketMessage.dropped message)
  ∧ (kept ≠ [] → WebSocketMessage.is_text message = false →
     message' = message)
  ∧ dict_lookup d' "content" = Some (PList kept)
  ∧ (∀ key, key ≠ "content" → dict_lookup d' key = dict_lookup d key)
  ∧ d'.*1 = d.*1.
Proof.
  intros Hloads Hcontent Hkept message' d'. subst message'.
  rewrite (filter_update_pulse_message_envelope _ _ _ _ _ _
             Hloads Hcontent Hkept).
  cbn [snd]. split; [|split; [|split; [|split; [|split]]]].
  - by intros ->.
  - destruct kept; [done|]. by intros _ ->.
  - destruct kept; [done|]. by intros _ ->.
  - apply dict_set_lookup_eq.
  - intros key Hkey. by apply dict_set_lookup_ne.
  - apply dict_set_keys. by rewrite Hcontent.
Qed.

End RewriteProperties.

(** C6, as stated, fails on a frame that is not a text frame: the hook
    assigns the re-encoded text only under [if message.is_text], so a
    binary frame whose envelope keeps one item of two is left with its
    original payload. *)
Lemma binary_frame_is_not_reencoded :
  ¬ (∀ (encode_utf8 : string → string) (json_loads : string → result pyval)
       (json_dumps : pyval → string) (cfg : FilterConfig.t)
       (stats : FilterStats.t) (message : WebSocketMessage.t) (text : string)
       (d : list (string * pyval)) (items kept : list pyval),
       json_loads text = Ok (PDict d) →
       dict_lookup d "content" = Some (PList items) →
       MessageFilter.filter_update_pulse_content cfg items = Ok kept →
       kept ≠ [] →
       (AxiomTradeFilter._filter_update_pulse_message encode_utf8 json_loads
          json_dumps cfg stats message text).2
       = WebSocketMessage.with_content message
           (encode_utf8
              (json_dumps (PDict (dict_set d "content" (PList kept)))))).
Proof.
  intros H.
  specialize (H sample_encode_utf8 sample_json_loads sample_json_dumps
                FilterConfig.config FilterStats.init
                (binary_frame (sample_json_dumps pulse_envelope))
                (sample_json_dumps pulse_envelope) pulse_fields pulse_items
                [pulse_item "b" "BmFdpraQhkiDQE6SnfG5omcA1VwzqfXrwtNYBwWTymy6"]).
  assert (sample_json_loads (sample_json_dumps pulse_envelope)
          = Ok (PDict pulse_fields)) as Hloads by (vm_compute; reflexivity).
  assert (MessageFilter.filter_update_pulse_content FilterConfig.config
            pulse_items
          = Ok [pulse_item "b" "BmFdpraQhkiDQE6SnfG5omcA1VwzqfXrwtNYBwWTymy6"])
    as Hkept by (vm_compute; reflexivity).
  specialize (H Hloads eq_refl Hkept ltac:(discriminate)).
  vm_compute in H. discriminate H.
Qed.

Lemma update_pulse_envelope_rewritten_witness :
  let kucoin := "BmFdpraQhkiDQE6SnfG5omcA1VwzqfXrwtNYBwWTymy6" in
  let text := sample_json_dumps pulse_envelope in
  (AxiomTradeFilter._filter_update_pulse_message sample_encode_utf8
     sample_json_loads sample_json_dumps FilterConfig.config
     FilterStats.init (text_frame text) text).2
  = text_frame
      (sample_json_dumps
         (PDict [("room", PStr "update_pulse_v2");
                 ("content", PList [pulse_item "b" kucoin]);
                 ("seq", PInt 7)]))
  ∧ (AxiomTradeFilter._filter_update_pulse_message sample_encode_utf8
       sample_json_loads sample_json_dumps FilterConfig.config
       FilterStats.init (binary_frame text) text).2
    = binary_frame text
  ∧ (AxiomTradeFilter._filter_update_pulse_message sample_encode_utf8
       sample_json_loads sample_json_dumps FilterConfig.config
       FilterStats.init
       (text_frame (sample_json_dumps pulse_envelope_unmatched))
       (sample_json_dumps pulse_envelope_unmatched)).2
    = WebSocketMessage.drop
        (text_frame (sample_json_dumps pulse_envelope_unmatched)).
Proof.
  intros kucoin text.
  assert (sample_json_loads text = Ok (PDict pulse_fields)) as Hloads
    by (vm_compute; reflexivity).
  assert (MessageFilter.filter_update_pulse_content FilterConfig.config
            pulse_items = Ok [pulse_item "b" kucoin]) as Hkept
    by (vm_compute; reflexivity).
  split; [|split].
  - destruct (update_pulse_envelope_rewritten sample_encode_utf8
                sample_json_loads sample_json_dumps FilterConfig.config
                FilterStats.init (text_frame text) text pulse_fields
                pulse_items [pulse_item "b" kucoin] Hloads eq_refl Hkept)
      as (_ & Htext & _).
    destruct (Htext ltac:(discriminate) eq_refl) as [-> _]. reflexivity.
  - destruct (update_pulse_envelope_rewritten sample_encode_utf8
                sample_json_loads sample_json_dumps FilterConfig.config
                FilterStats.init (binary_frame text) text pulse_fields
                pulse_items [pulse_item "b" kucoin] Hloads eq_refl Hkept)
      as (_ & _ & Hbinary & _).
    apply Hbinary; [discriminate | reflexivity].
  - assert (sample_json_loads (sample_json_dumps pulse_envelope_unmatched)
            = Ok (PDict [("room", PStr "update_pulse_v2");
                         ("content", PList [pulse_item "a" "unknown"])]))
      as Hloads' by (vm_compute; reflexivity).
    assert (MessageFilter.filter_update_pulse_content FilterConfig.config
              [pulse_item "a" "unknown"] = Ok []) as Hnone
      by (vm_compute; reflexivity).
    destruct (update_pulse_envelope_rewritten sample_encode_utf8
                sample_json_loads sample_json_dumps FilterConfig.config
                FilterStats.init
                (text_frame (sample_json_dumps pulse_envelope_unmatched))
                (sample_json_dumps pulse_envelope_unmatched) _
                [pulse_item "a" "unknown"] [] Hloads' eq_refl Hnone)
      as (Hempty & _).
    by apply Hempty.
Defined.

(** ** The HTTP response hook *)

Section ResponseProperties.

Variable encode_utf8 : string → string.
Variable json_loads_bytes : string → result pyval.
Variable json_dumps : pyval → string.
Variable cfg : FilterConfig.t.

(** C7 (error handling). For a [POST /pulse] response of the target
    host whose body parses to a single JSON object: when the evaluator
    returns [False] the body becomes the encoded empty object and the
    flow still carries a response; when it returns [True] the flow is
    unchanged. Nothing but the body is ever modified. *)
Theorem singleton_response_substituted_when_dropped (stats : FilterStats.t)
    (flow : HTTPFlow.t) (raw : string) (d : list (string * pyval))
    (keep : bool) :
  HTTPFlow.path flow = "/pulse" →
  HTTPFlow.method flow = "POST" →
  AxiomTradeFilter._is_target_host cfg flow = true →
  HTTPFlow.response flow = Some raw →
  json_loads_bytes raw = Ok (PDict d) →
  MessageFilter.should_keep_xhr_response cfg (PDict d) = Ok keep →
  let flow' :=
    (AxiomTradeFilter.response encode_utf8 json_loads_bytes json_dumps cfg
       stats flow).2 in
  (keep = false
   → HTTPFlow.response flow' = Some (encode_utf8 (json_dumps (PDict []))))
  ∧ (keep = true → flow' = flow)
  ∧ is_Some (HTTPFlow.response flow')
  ∧ HTTPFlow.server_conn flow' = HTTPFlow.server_conn flow
  ∧ HTTPFlow.pretty_host flow' = HTTPFlow.pretty_host flow
  ∧ HTTPFlow.path flow' = HTTPFlow.path flow
  ∧ HTTPFlow.method flow' = HTTPFlow.method flow
  ∧ HTTPFlow.websocket flow' = HTTPFlow.websocket flow.
Proof.
  intros Hpath Hmethod Hhost Hresp Hloads Hkeep flow'. subst flow'.
  unfold AxiomTradeFilter.response, AxiomTradeFilter.response_body.
  rewrite Hpath, Hmethod, Hhost, Hresp, Hloads, bind_Ok, Hkeep, bind_Ok.
  cbn [String.eqb Ascii.eqb Bool.eqb negb orb].
  destruct keep; cbn [negb snd].
  - split; [done|]. split; [done|]. rewrite Hresp. by eauto 10.
  - split; [done|]. split; [done|]. by eauto 10.
Qed.

End ResponseProperties.

Lemma singleton_response_substituted_when_dropped_witness :
  let kucoin := "BmFdpraQhkiDQE6SnfG5omcA1VwzqfXrwtNYBwWTymy6" in
  let dropped := pulse_flow (sample_json_dumps (xhr_item "a" "unknown")) in
  let kept := pulse_flow (sample_json_dumps (xhr_item "b" kucoin)) in
  HTTPFlow.response
    (AxiomTradeFilter.response sample_encode_utf8 sample_json_loads
       sample_json_dumps FilterConfig.config FilterStats.init dropped).2
  = Some "{}"
  ∧ (AxiomTradeFilter.response sample_encode_utf8 sample_json_loads
       sample_json_dumps FilterConfig.config FilterStats.init kept).2
    = kept.
Proof.
  intros kucoin dropped kept. split.
  - refine (proj1 (singleton_response_substituted_when_dropped
                     sample_encode_utf8 sample_json_loads sample_json_dumps
                     FilterConfig.config FilterStats.init dropped
                     (sample_json_dumps (xhr_item "a" "unknown"))
                     [("pairAddress", PStr "pair"); ("devAddress", PStr "a");
                      ("devWalletFunding", funding_from "unknown")]
                     false _ _ _ _ _ _) _);
      reflexivity.
  - refine (proj1 (proj2 (singleton_response_substituted_when_dropped
                     sample_encode_utf8 sample_json_loads sample_json_dumps
                     FilterConfig.config FilterStats.init kept
                     (sample_json_dumps (xhr_item "b" kucoin))
                     [("pairAddress", PStr "pair"); ("devAddress", PStr "b");
                      ("devWalletFunding", funding_from kucoin)]
                     true _ _ _ _ _ _)) _);
      reflexivity.
Defined.

(** ** The counters along the pipeline

    Every record call the two hooks make is in range, so the hooks
    preserve the invariant of the counters. *)

Section PipelineCounters.

Variable decode_utf8 : string → option string.
Variable encode_utf8 : string → string.
Variable b64encode : string → string.
Variable json_loads : string → result pyval.
Variable json_loads_bytes : string → result pyval.
Variable json_dumps : pyval → string.
Variable cfg : FilterConfig.t.

Lemma comprehension_if_length {A} (p : A → result bool) (l kept : list A) :
  comprehension_if p l = Ok kept →
  (0 ≤ Z.of_nat (length kept) ≤ Z.of_nat (length l))%Z.
Proof.
  intros H. apply comprehension_if_kept in H as (_ & _ & Hlen & _). lia.
Qed.

Lemma filter_update_pulse_message_call (stats : FilterStats.t)
    (message : WebSocketMessage.t) (text : string) :
  let stats' :=
    (AxiomTradeFilter._filter_update_pulse_message encode_utf8 json_loads
       json_dumps cfg stats message text).1 in
  stats' = stats
  ∨ ∃ c, call_in_range c ∧ stats' = apply_call stats c.
Proof.
  unfold AxiomTradeFilter._filter_update_pulse_message,
    AxiomTradeFilter._filter_update_pulse_body.
  destruct (json_loads text) as [data|e]; [|by left].
  rewrite bind_Ok.
  destruct (py_contains data "content") as [[]|e]; [|by left|by left].
  rewrite bind_Ok. cbn [negb].
  destruct (py_getitem_str data "content") as [content|e]; [|by left].
  rewrite bind_Ok. destruct content as [| | | | |items|]; try by left.
  destruct (MessageFilter.filter_update_pulse_content cfg items)
    as [kept|e] eqn:Hkept; [|by left].
  rewrite bind_Ok.
  assert (∃ c, call_in_range c
               ∧ FilterStats.record_update_pulse stats
                   (Z.of_nat (length items)) (Z.of_nat (length kept))
                 = apply_call stats c) as Hcall.
  { exists (RecordUpdatePulse (Z.of_nat (length items))
              (Z.of_nat (length kept))).
    split; [|done]. by apply comprehension_if_length in Hkept. }
  destruct (length kept =? 0); [by right|].
  destruct (py_setitem_str data "content" (PList kept)) as [data'|e];
    [|by left].
  rewrite bind_Ok.
  destruct (WebSocketMessage.is_text message); by right.
Qed.

Lemma websocket_message_call (stats : FilterStats.t) (flow : HTTPFlow.t) :
  let stats' :=
    (AxiomTradeFilter.websocket_message decode_utf8 encode_utf8 b64encode
       json_loads json_dumps cfg stats flow).1 in
  stats' = stats
  ∨ ∃ c, call_in_range c ∧ stats' = apply_call stats c.
Proof.
  unfold AxiomTradeFilter.websocket_message.
  destruct (negb _); [by left|].
  destruct (HTTPFlow.websocket flow) as [messages|]; [|by left].
  destruct (last messages) as [message|]; [|by left].
  destruct (WebSocketMessage.from_client message); [by left|].
  set (text := AxiomTradeFilter._decode_message_content _ _ _).
  case_bool_decide as Hpulse.
  - pose proof (filter_update_pulse_message_call stats message text) as Hc.
    destruct (AxiomTradeFilter._filter_update_pulse_message _ _ _ _ _ _ _)
      as [stats' message']. exact Hc.
  - case_bool_decide as Hpairs; [|by left].
    destruct (filter_new_pairs_message_keeps json_loads cfg stats message text)
      as (stats' & -> & [-> | ->]); [by left|].
    right. by exists (RecordNewPair true).
Qed.

Lemma response_call (stats : FilterStats.t) (flow : HTTPFlow.t) :
  let stats' :=
    (AxiomTradeFilter.response encode_utf8 json_loads_bytes json_dumps cfg
       stats flow).1 in
  stats' = stats
  ∨ ∃ c, call_in_range c ∧ stats' = apply_call stats c.
Proof.
  unfold AxiomTradeFilter.response, AxiomTradeFilter.response_body.
  destruct (_ || _); [by left|].
  destruct (negb _); [by left|].
  destruct (HTTPFlow.response flow) as [raw|]; [|by left].
  destruct (json_loads_bytes raw) as [content|e]; [|by left].
  rewrite bind_Ok. destruct content as [| | | | |items|d]; try by left.
  - destruct (MessageFilter.filter_xhr_responses cfg items)
      as [kept|e] eqn:Hkept; [|by left].
    rewrite bind_Ok. right.
    exists (RecordXhr (Z.of_nat (length items)) (Z.of_nat (length kept))).
    split; [|done]. by apply comprehension_if_length in Hkept.
  - destruct (MessageFilter.should_keep_xhr_response cfg (PDict d))
      as [keep|e]; [|by left].
    rewrite bind_Ok. right.
    exists (RecordXhr 1 (if keep then 1 else 0)).
    split; [destruct keep; simpl; lia|].
    by destruct keep.
Qed.

(** Both hooks preserve [0 <= kept_sum <= total_sum] per category. *)
Lemma hooks_preserve_stats_invariant (stats : FilterStats.t)
    (flow : HTTPFlow.t) :
  stats_invariant stats →
  stats_invariant
    (AxiomTradeFilter.websocket_message decode_utf8 encode_utf8 b64encode
       json_loads json_dumps cfg stats flow).1
  ∧ stats_invariant
      (AxiomTradeFilter.response encode_utf8 json_loads_bytes json_dumps cfg
         stats flow).1.
Proof.
  intros Hinv. split.
  - destruct (websocket_message_call stats flow) as [-> | (c & Hc & ->)];
      [done | by apply apply_call_invariant].
  - destruct (response_call stats flow) as [-> | (c & Hc & ->)];
      [done | by apply apply_call_invariant].
Qed.

End PipelineCounters.

(** * Further properties of the code *)

(** ** The positional decoder *)

(** X1. Slots past index 42 are never read: appending anything to a
    list of at least 43 slots gives the same decode, success or
    exception alike. *)
Theorem from_array_ignores_slots_past_42 (l extra : list pyval) :
  43 ≤ length l →
  UpdatePulseItem.from_array (PList (l ++ extra))
  = UpdatePulseItem.from_array (PList l).
Proof.
  intros Hlen.
  rewrite !from_array_list, !decode_protocol_details_list,
    !decode_dev_wallet_funding_list.
  by rewrite !lookup_app_l by lia.
Qed.

Lemma from_array_ignores_slots_past_42_witness :
  UpdatePulseItem.from_array
    (PList (replicate 43 (PInt 5) ++ [PStr "new"; PNone]))
  = UpdatePulseItem.from_array (PList (replicate 43 (PInt 5))).
Proof.
  apply (from_array_ignores_slots_past_42 (replicate 43 (PInt 5))).
  simpl. lia.
Defined.

(** X2. A slot that is present is stored as it is, whatever its type:
    outside the two nested slots 8 and 39, field [i] of the decoded item
    is exactly element [i] of the list. *)
Theorem from_array_stores_present_slots (l : list pyval)
    (r : UpdatePulseItem.t) (i : nat) (x : pyval) :
  UpdatePulseItem.from_array (PList l) = Ok r →
  i ≠ 8 → i ≠ 39 → i < 43 →
  l !! i = Some x →
  fields r !! i = Some (Plain x).
Proof.
  rewrite from_array_list. intros H Hi8 Hi39 Hlt Hx.
  inv_bind H. injection H as <-.
  do 43 (destruct i as [|i];
    [ first [ done | simpl; by rewrite Hx ] | ]).
  lia.
Qed.

Lemma from_array_stores_present_slots_witness :
  ∃ r, UpdatePulseItem.from_array (short_item "dev") = Ok r
       ∧ fields r !! 2 = Some (Plain (PStr "dev")).
Proof.
  eexists. split; [reflexivity|].
  eapply (from_array_stores_present_slots
            [PStr "pair"; PStr "token"; PStr "dev"]);
    [reflexivity | lia | lia | lia | reflexivity].
Defined.

(** X3. The two nested slots treat an empty object differently: any
    dict in slot 8, the empty one included, decodes to a present
    [protocol_details]; in slot 39 only a non-empty dict decodes to a
    present [dev_wallet_funding], and the empty dict decodes to an
    absent one. *)
Theorem from_array_nested_slots (l : list pyval) (r : UpdatePulseItem.t) :
  UpdatePulseItem.from_array (PList l) = Ok r →
  (∀ d, l !! 8 = Some (PDict d) →
     ∃ pd, ProtocolDetails.from_dict (PDict d) = Ok pd
           ∧ UpdatePulseItem.protocol_details r = Some pd)
  ∧ (∀ kv d, l !! 39 = Some (PDict (kv :: d)) →
       ∃ f, DevWalletFunding.from_ws_array (PDict (kv :: d)) = Ok (Some f)
            ∧ UpdatePulseItem.dev_wallet_funding r = Some f)
  ∧ (l !! 39 = Some (PDict []) →
     UpdatePulseItem.dev_wallet_funding r = None).
Proof.
  rewrite from_array_list. intros H. inv_bind H. injection H as <-.
  cbn [UpdatePulseItem.protocol_details UpdatePulseItem.dev_wallet_funding].
  rewrite decode_protocol_details_list in Ha.
  rewrite decode_dev_wallet_funding_list in Ha0.
  split; [|split].
  - intros d Hd. rewrite Hd in Ha. eexists. split; [reflexivity|].
    by injection Ha.
  - intros kv d Hd. rewrite Hd in Ha0. eexists. split; [reflexivity|].
    by injection Ha0.
  - intros Hd. rewrite Hd in Ha0. by injection Ha0.
Qed.

Lemma from_array_nested_slots_witness :
  ∃ r, UpdatePulseItem.from_array
         (PList (replicate 8 PNone ++ [PDict []] ++ replicate 30 PNone
                 ++ [PDict []])) = Ok r
       ∧ is_Some (UpdatePulseItem.protocol_details r)
       ∧ UpdatePulseItem.dev_wallet_funding r = None.
Proof.
  eexists. split; [reflexivity|].
  destruct (from_array_nested_slots
              (replicate 8 PNone ++ [PDict []] ++ replicate 30 PNone
               ++ [PDict []]) _ eq_refl) as (Hpd & _ & Hnone).
  split.
  - destruct (Hpd [] eq_refl) as (pd & _ & ->). by exists pd.
  - by apply Hnone.
Defined.

(** X4. What [from_array] does with a value that is not a list: a
    number, boolean or [None] has no [len] and raises [TypeError]; a
    non-empty JSON object has no integer key and raises [KeyError];
    the empty object decodes like the empty list, to the all-defaults
    item. *)
Theorem from_array_of_non_list :
  (∀ v, (∀ l, v ≠ PList l) → (∀ s, v ≠ PStr s) → (∀ d, v ≠ PDict d) →
        UpdatePulseItem.from_array v = Raise TypeError)
  ∧ (∀ kv d, UpdatePulseItem.from_array (PDict (kv :: d)) = Raise KeyError)
  ∧ UpdatePulseItem.from_array (PDict [])
    = UpdatePulseItem.from_array (PList [])
  ∧ (∀ r, UpdatePulseItem.from_array (PList []) = Ok r
          → fields r = documented_defaults).
Proof.
  split; [|split; [|split]].
  - intros v Hl Hs Hd.
    destruct v; try reflexivity; [by destruct (Hs s) | by destruct (Hl l)
                                 | by destruct (Hd d)].
  - intros kv d. unfold UpdatePulseItem.from_array.
    assert (∀ dflt, slot (PDict (kv :: d)) 0 dflt = Raise KeyError) as Hslot.
    { intros dflt. unfold slot. cbn [py_len length]. rewrite bind_Ok.
      by rewrite bool_decide_true by lia. }
    rewrite Hslot.
    unfold UpdatePulseItem.decode_protocol_details,
      UpdatePulseItem.decode_dev_wallet_funding.
    cbn [py_len]. rewrite !bind_Ok. cbn [py_getitem].
    destruct (bool_decide (8 < length (kv :: d)));
      destruct (bool_decide (39 < length (kv :: d))); reflexivity.
  - reflexivity.
  - intros r [= <-]. reflexivity.
Qed.

Lemma from_array_of_non_list_witness :
  UpdatePulseItem.from_array (PInt 3) = Raise TypeError
  ∧ UpdatePulseItem.from_array (PDict [("a", PInt 1)]) = Raise KeyError.
Proof.
  destruct from_array_of_non_list as (Hscalar & Hdict & _).
  split; [apply Hscalar; discriminate | apply Hdict].
Defined.

(** ** The keyed decoders *)

Lemma py_get_dict (d : list (string * pyval)) (key : string) (dflt : pyval) :
  py_get (PDict d) key dflt = Ok (default dflt (dict_lookup d key)).
Proof. reflexivity. Qed.

Lemma py_get_not_dict (v : pyval) (key : string) (dflt : pyval) :
  is_dict v = false → py_get v key dflt = Raise AttributeError.
Proof. by destruct v. Qed.

Lemma xhr_decode_funding_dict (d : list (string * pyval)) :
  XHRPulseResponse.decode_dev_wallet_funding (PDict d)
  = match dict_lookup d "devWalletFunding" with
    | Some x => if truthy x then DevWalletFunding.from_xhr x else Ok None
    | None => Ok None
    end.
Proof.
  unfold XHRPulseResponse.decode_dev_wallet_funding.
  rewrite py_contains_dict, bind_Ok. cbn [py_getitem_str].
  destruct (dict_lookup d "devWalletFunding") as [x|] eqn:Hx.
  - by rewrite bool_decide_true by eauto.
  - rewrite bool_decide_false; [done|]. by intros [? ?].
Qed.

Lemma xhr_from_dict_not_dict (v : pyval) :
  is_dict v = false → raises (XHRPulseResponse.from_dict v).
Proof.
  intros Hv. unfold XHRPulseResponse.from_dict,
    XHRPulseResponse.decode_dev_wallet_funding.
  destruct (py_contains v "devWalletFunding") as [present|e] eqn:Hc;
    [|by exists e].
  rewrite bind_Ok.
  destruct v; try discriminate; cbn [py_getitem_str];
    destruct present; rewrite ?bind_Raise, ?bind_Ok; by eexists.
Qed.

(** X5. [XHRPulseResponse.from_dict] returns exactly on a JSON object
    whose [devWalletFunding] is missing, falsy or itself an object; on
    anything that is not an object it raises. *)
Theorem xhr_from_dict_returns_iff (v : pyval) :
  returns (XHRPulseResponse.from_dict v)
  ↔ ∃ d, v = PDict d
         ∧ ∀ x, dict_lookup d "devWalletFunding" = Some x
                → truthy x = true → is_dict x = true.
Proof.
  split.
  - intros Hret. destruct (is_dict v) eqn:Hv.
    + destruct v; try discriminate. exists d. split; [done|].
      intros x Hx Ht. destruct (is_dict x) eqn:Hd; [done|].
      rewrite (from_dict_xhr_funding_mismatch d x Hx Ht Hd) in Hret.
      by apply not_returns_Raise in Hret.
    + destruct (xhr_from_dict_not_dict v Hv) as [e He].
      rewrite He in Hret. by apply not_returns_Raise in Hret.
  - intros (d & -> & Hfund). unfold XHRPulseResponse.from_dict.
    rewrite xhr_decode_funding_dict, !py_get_dict.
    assert (returns (match dict_lookup d "devWalletFunding" with
                     | Some x =>
                         if truthy x then DevWalletFunding.from_xhr x
                         else Ok None
                     | None => Ok None
                     end)) as [f ->].
    { destruct (dict_lookup d "devWalletFunding") as [x|];
        [|apply returns_Ok].
      destruct (truthy x) eqn:Ht; [|apply returns_Ok].
      specialize (Hfund x eq_refl Ht). destruct x; try discriminate.
      apply from_xhr_dict. }
    apply returns_Ok.
Qed.

(** X6. Every plain field of a decoded XHR record is what
    [data.get(key, default)] gives for its camelCase key: the value
    under the key when the key is present, of whatever type, and the
    field's default when it is missing. *)
Theorem xhr_from_dict_reads_keys (d : list (string * pyval))
    (r : XHRPulseResponse.t) :
  XHRPulseResponse.from_dict (PDict d) = Ok r →
  xhr_keyed_fields r = read_keys d xhr_key_defaults.
Proof.
  unfold XHRPulseResponse.from_dict. rewrite !py_get_dict.
  intros H. apply bind_Ok_inv in H as (f & _ & H).
  injection H as <-. reflexivity.
Qed.

Lemma xhr_from_dict_reads_keys_witness :
  ∃ r, XHRPulseResponse.from_dict (xhr_item "dev" "w") = Ok r
       ∧ dict_lookup (xhr_keyed_fields r) "devAddress" = Some (PStr "dev")
       ∧ dict_lookup (xhr_keyed_fields r) "kolCount" = Some (PInt 0).
Proof.
  eexists. split; [reflexivity|].
  rewrite (xhr_from_dict_reads_keys
             [("pairAddress", PStr "pair"); ("devAddress", PStr "dev");
              ("devWalletFunding", funding_from "w")] _ eq_refl).
  split; reflexivity.
Defined.

(** X7. [NewPairContent.from_dict] never fails on a JSON object: each
    field is what [data.get] gives for its snake_case key, with its
    default when the key is missing. On a value that is not an object
    it raises [AttributeError]. *)
Theorem new_pair_from_dict_total_on_objects :
  (∀ d, ∃ r, NewPairContent.from_dict (PDict d) = Ok r
             ∧ new_pair_keyed_fields r = read_keys d new_pair_key_defaults)
  ∧ (∀ v, is_dict v = false
          → NewPairContent.from_dict v = Raise AttributeError).
Proof.
  split.
  - intros d. unfold NewPairContent.from_dict. rewrite !py_get_dict.
    eexists. split; reflexivity.
  - intros v Hv. unfold NewPairContent.from_dict.
    rewrite (py_get_not_dict v "pair_address" _ Hv). reflexivity.
Qed.

Lemma new_pair_from_dict_total_on_objects_witness :
  NewPairContent.from_dict (PList []) = Raise AttributeError.
Proof. by apply (proj2 new_pair_from_dict_total_on_objects). Defined.

(** X8. The funding object decodes the same way from both formats;
    a falsy value, the empty object included, decodes to [None]; a
    non-empty object decodes to a present record whose five fields are
    read by key, a missing key giving [""] (or [0.0] for the amount). *)
Theorem funding_decoders_agree :
  (∀ x, DevWalletFunding.from_ws_array x = DevWalletFunding.from_xhr x)
  ∧ (∀ x, truthy x = false → DevWalletFunding.from_xhr x = Ok None)
  ∧ DevWalletFunding.from_xhr (PDict []) = Ok None
  ∧ (∀ kv d,
       DevWalletFunding.from_xhr (PDict (kv :: d))
       = Ok (Some
               (DevWalletFunding.Build
                  (default (PStr "") (dict_lookup (kv :: d) "walletAddress"))
                  (default (PStr "")
                     (dict_lookup (kv :: d) "fundingWalletAddress"))
                  (default (PStr "") (dict_lookup (kv :: d) "signature"))
                  (default float_zero (dict_lookup (kv :: d) "amountSol"))
                  (default (PStr "") (dict_lookup (kv :: d) "fundedAt"))))).
Proof.
  split; [done|]. split; [|split; [done|]].
  - intros x Ht. unfold DevWalletFunding.from_xhr. by rewrite Ht.
  - intros kv d. reflexivity.
Qed.

Lemma funding_decoders_agree_witness :
  DevWalletFunding.from_xhr (PStr "") = Ok None.
Proof. by apply (proj1 (proj2 funding_decoders_agree)). Defined.

Lemma xhr_from_dict_returns_iff_witness :
  returns (XHRPulseResponse.from_dict (xhr_item "dev" "w")).
Proof.
  apply xhr_from_dict_returns_iff. eexists. split; [reflexivity|].
  intros x [= <-] _. reflexivity.
Defined.

(** ** The evaluators *)

(** On a list the verdict is the criteria applied to slot 2 (or [""])
    and to the decoded slot 39. *)
Lemma should_keep_update_pulse_item_list (cfg : FilterConfig.t)
    (l : list pyval) :
  MessageFilter.should_keep_update_pulse_item cfg (PList l)
  = (match l !! 39 with
     | Some x => if truthy x then DevWalletFunding.from_ws_array x else Ok None
     | None => Ok None
     end ≫= λ f, MessageFilter.criteria cfg (default (PStr "") (l !! 2)) f).
Proof.
  unfold MessageFilter.should_keep_update_pulse_item.
  rewrite from_array_list, decode_dev_wallet_funding_list.
  destruct (decode_protocol_details_list_returns l) as [pd ->].
  rewrite bind_Ok.
  by destruct (match l !! 39 with Some _ => _ | None => _ end).
Qed.

(** On an object the verdict is the criteria applied to [devAddress]
    (or [""]) and to the decoded [devWalletFunding]. *)
Lemma should_keep_xhr_response_dict (cfg : FilterConfig.t)
    (d : list (string * pyval)) :
  MessageFilter.should_keep_xhr_response cfg (PDict d)
  = (match dict_lookup d "devWalletFunding" with
     | Some x => if truthy x then DevWalletFunding.from_xhr x else Ok None
     | None => Ok None
     end ≫= λ f,
       MessageFilter.criteria cfg
         (default (PStr "") (dict_lookup d "devAddress")) f).
Proof.
  unfold MessageFilter.should_keep_xhr_response, XHRPulseResponse.from_dict.
  rewrite xhr_decode_funding_dict, !py_get_dict.
  by destruct (match dict_lookup d "devWalletFunding" with
               | Some _ => _ | None => _ end).
Qed.

(** X9. The verdict on a pulse item reads slots 2 and 39 only: two
    lists that agree on those two slots get the same verdict, the same
    exception included, whatever their other slots and lengths. *)
Theorem verdict_reads_only_slots_2_and_39 (cfg : FilterConfig.t)
    (l l' : list pyval) :
  l !! 2 = l' !! 2 → l !! 39 = l' !! 39 →
  MessageFilter.should_keep_update_pulse_item cfg (PList l)
  = MessageFilter.should_keep_update_pulse_item cfg (PList l').
Proof.
  intros H2 H39. rewrite !should_keep_update_pulse_item_list.
  by rewrite H2, H39.
Qed.

Lemma verdict_reads_only_slots_2_and_39_witness :
  MessageFilter.should_keep_update_pulse_item FilterConfig.config
    (short_item "dev")
  = MessageFilter.should_keep_update_pulse_item FilterConfig.config
      (PList [PInt 1; PList []; PStr "dev"; PStr "name"]).
Proof.
  by apply (verdict_reads_only_slots_2_and_39 FilterConfig.config
              [PStr "pair"; PStr "token"; PStr "dev"]
              [PInt 1; PList []; PStr "dev"; PStr "name"]).
Defined.

(** X10. The two evaluators agree: a pulse item and an XHR object that
    carry the same dev address (slot 2 against key [devAddress]) and
    the same funding value (slot 39 against key [devWalletFunding]),
    both possibly missing, get the same verdict under every
    configuration. *)
Theorem pulse_and_xhr_verdicts_agree (cfg : FilterConfig.t)
    (l : list pyval) (d : list (string * pyval)) :
  l !! 2 = dict_lookup d "devAddress" →
  l !! 39 = dict_lookup d "devWalletFunding" →
  MessageFilter.should_keep_update_pulse_item cfg (PList l)
  = MessageFilter.should_keep_xhr_response cfg (PDict d).
Proof.
  intros H2 H39.
  rewrite should_keep_update_pulse_item_list, should_keep_xhr_response_dict.
  by rewrite H2, H39.
Qed.

Lemma pulse_and_xhr_verdicts_agree_witness :
  MessageFilter.should_keep_update_pulse_item FilterConfig.config
    (pulse_item "dev" "w")
  = MessageFilter.should_keep_xhr_response FilterConfig.config
      (xhr_item "dev" "w").
Proof.
  by apply (pulse_and_xhr_verdicts_agree FilterConfig.config
              ([PStr "pair"; PStr "token"; PStr "dev"]
               ++ replicate 36 PNone ++ [funding_from "w"])
              [("pairAddress", PStr "pair"); ("devAddress", PStr "dev");
               ("devWalletFunding", funding_from "w")]).
Defined.

(** X11. Without a funding record only the dev-address criterion can
    keep: when the dev-address criterion is disabled, a pulse item whose
    slot 39 is missing or falsy, and an XHR object whose
    [devWalletFunding] is missing or falsy, are dropped under every
    funder set. *)
Theorem no_funding_record_is_dropped (cfg : FilterConfig.t) :
  FilterConfig.FILTER_BY_DEV_ADDRESS cfg = false →
  (∀ l, (∀ x, l !! 39 = Some x → truthy x = false) →
        MessageFilter.should_keep_update_pulse_item cfg (PList l) = Ok false)
  ∧ (∀ d, (∀ x, dict_lookup d "devWalletFunding" = Some x
                → truthy x = false) →
          MessageFilter.should_keep_xhr_response cfg (PDict d) = Ok false).
Proof.
  intros Hdev.
  assert (∀ dev, MessageFilter.criteria cfg dev None = Ok false) as Hnone.
  { intros dev. unfold MessageFilter.criteria. rewrite Hdev.
    by destruct (FilterConfig.FILTER_BY_FUNDING_WALLET cfg). }
  split.
  - intros l Hfalsy. rewrite should_keep_update_pulse_item_list.
    destruct (l !! 39) as [x|]; [|apply Hnone].
    rewrite (Hfalsy x eq_refl). apply Hnone.
  - intros d Hfalsy. rewrite should_keep_xhr_response_dict.
    destruct (dict_lookup d "devWalletFunding") as [x|]; [|apply Hnone].
    rewrite (Hfalsy x eq_refl). apply Hnone.
Qed.

Lemma no_funding_record_is_dropped_witness :
  MessageFilter.should_keep_update_pulse_item FilterConfig.config
    (short_item "dev") = Ok false
  ∧ MessageFilter.should_keep_xhr_response FilterConfig.config
      (PDict [("devAddress", PStr "dev"); ("devWalletFunding", PNone)])
    = Ok false.
Proof.
  destruct (no_funding_record_is_dropped FilterConfig.config eq_refl)
    as [Hpulse Hxhr].
  split.
  - apply (Hpulse [PStr "pair"; PStr "token"; PStr "dev"]).
    intros x Hx. discriminate Hx.
  - apply Hxhr. intros x [= <-]. reflexivity.
Defined.

(** ** Editing the address sets *)

Lemma py_in_set_mono (x : pyval) (s s' : gset string) :
  s ⊆ s' → py_in_set x s = Ok true → py_in_set x s' = Ok true.
Proof.
  intros Hsub H. apply py_in_set_member.
  destruct (proj1 (py_in_set_spec _ _ _ H) eq_refl) as (a & -> & Hin).
  exists a. split; [done|]. by apply Hsub.
Qed.

Lemma py_in_set_same_raise (x : pyval) (s s' : gset string) (b : bool) :
  py_in_set x s = Ok b → returns (py_in_set x s').
Proof. destruct x; simpl; intros [=]; apply returns_Ok. Qed.

(** Growing either set, with the flags as they are, keeps a [True]
    verdict of the criteria. *)
Lemma criteria_mono (cfg cfg' : FilterConfig.t) (dev : pyval)
    (funding : option DevWalletFunding.t) :
  FilterConfig.FILTER_BY_DEV_ADDRESS cfg'
  = FilterConfig.FILTER_BY_DEV_ADDRESS cfg →
  FilterConfig.FILTER_BY_FUNDING_WALLET cfg'
  = FilterConfig.FILTER_BY_FUNDING_WALLET cfg →
  FilterConfig.DEV_ADDRESSES cfg ⊆ FilterConfig.DEV_ADDRESSES cfg' →
  FilterConfig.FUNDER_ADDRESSES cfg ⊆ FilterConfig.FUNDER_ADDRESSES cfg' →
  MessageFilter.criteria cfg dev funding = Ok true →
  MessageFilter.criteria cfg' dev funding = Ok true.
Proof.
  intros Hfd Hff Hsd Hsf. unfold MessageFilter.criteria.
  rewrite Hfd, Hff. intros H.
  apply bind_Ok_inv in H as (by_dev & Hdev & H).
  assert (∃ by_dev',
            (if FilterConfig.FILTER_BY_DEV_ADDRESS cfg
             then py_in_set dev (FilterConfig.DEV_ADDRESSES cfg')
             else Ok false) = Ok by_dev'
            ∧ (by_dev = true → by_dev' = true)) as (by_dev' & -> & Himp).
  { destruct (FilterConfig.FILTER_BY_DEV_ADDRESS cfg).
    - destruct by_dev.
      + exists true. split; [by eapply py_in_set_mono | done].
      + destruct (py_in_set_same_raise dev _ (FilterConfig.DEV_ADDRESSES cfg')
                    _ Hdev) as [b' Hb']. by exists b'.
    - exists false. split; [done|]. by injection Hdev as <-. }
  rewrite bind_Ok. destruct by_dev'; [done|].
  destruct by_dev; [by discriminate Himp|].
  apply bind_Ok_inv in H as (by_funder & Hfund & H).
  assert (by_funder = true) as -> by (by destruct by_funder).
  assert ((if FilterConfig.FILTER_BY_FUNDING_WALLET cfg then
             match funding with
             | Some f =>
                 py_in_set (DevWalletFunding.funding_wallet_address f)
                   (FilterConfig.FUNDER_ADDRESSES cfg')
             | None => Ok false
             end
           else Ok false) = Ok true) as ->; [|done].
  destruct (FilterConfig.FILTER_BY_FUNDING_WALLET cfg); [|done].
  destruct funding as [f|]; [|done]. by eapply py_in_set_mono.
Qed.

(** X12. Adding an address never turns a keep into anything else: a
    pulse item or XHR object with verdict [True] still has verdict
    [True] after [add_dev_address] or [add_funder_address]. *)
Theorem adding_an_address_keeps_kept_records (cfg : FilterConfig.t)
    (address : string) (record : pyval) :
  (MessageFilter.should_keep_update_pulse_item cfg record = Ok true →
   MessageFilter.should_keep_update_pulse_item
     (FilterConfig.add_dev_address cfg address) record = Ok true
   ∧ MessageFilter.should_keep_update_pulse_item
       (FilterConfig.add_funder_address cfg address) record = Ok true)
  ∧ (MessageFilter.should_keep_xhr_response cfg record = Ok true →
     MessageFilter.should_keep_xhr_response
       (FilterConfig.add_dev_address cfg address) record = Ok true
     ∧ MessageFilter.should_keep_xhr_response
         (FilterConfig.add_funder_address cfg address) record = Ok true).
Proof.
  assert (∀ dev funding,
            MessageFilter.criteria cfg dev funding = Ok true →
            MessageFilter.criteria (FilterConfig.add_dev_address cfg address)
              dev funding = Ok true
            ∧ MessageFilter.criteria
                (FilterConfig.add_funder_address cfg address) dev funding
              = Ok true) as Hcrit.
  { intros dev funding H. split.
    - apply (criteria_mono cfg); try done.
      cbn [FilterConfig.add_dev_address FilterConfig.with_DEV_ADDRESSES
           FilterConfig.DEV_ADDRESSES]. set_solver.
    - apply (criteria_mono cfg); try done.
      cbn [FilterConfig.add_funder_address FilterConfig.with_FUNDER_ADDRESSES
           FilterConfig.FUNDER_ADDRESSES]. set_solver. }
  split.
  - unfold MessageFilter.should_keep_update_pulse_item. intros H.
    apply bind_Ok_inv in H as (item & -> & H). rewrite !bind_Ok.
    by apply Hcrit.
  - unfold MessageFilter.should_keep_xhr_response. intros H.
    apply bind_Ok_inv in H as (response & -> & H). rewrite !bind_Ok.
    by apply Hcrit.
Qed.

Lemma adding_an_address_keeps_kept_records_witness :
  MessageFilter.should_keep_update_pulse_item
    (FilterConfig.add_funder_address FilterConfig.config "other")
    (pulse_item "dev" "iGdFcQoyR2MwbXMHQskhmNsqddZ6rinsipHc4TNSdwu")
  = Ok true.
Proof.
  apply (proj1 (adding_an_address_keeps_kept_records FilterConfig.config
                  "other" _)).
  reflexivity.
Defined.

(** X13. The edits take effect on the next verdict. With the
    dev-address criterion enabled, a record whose dev address was just
    added is kept; with the funding criterion disabled, a record whose
    dev address was just removed is dropped. *)
Theorem edited_dev_address_decides (cfg : FilterConfig.t) (address : string)
    (item_array : pyval) (item : UpdatePulseItem.t) :
  UpdatePulseItem.from_array item_array = Ok item →
  UpdatePulseItem.dev_address item = PStr address →
  (FilterConfig.FILTER_BY_DEV_ADDRESS cfg = true →
   MessageFilter.should_keep_update_pulse_item
     (FilterConfig.add_dev_address cfg address) item_array = Ok true)
  ∧ (FilterConfig.FILTER_BY_FUNDING_WALLET cfg = false →
     MessageFilter.should_keep_update_pulse_item
       (FilterConfig.remove_dev_address cfg address) item_array = Ok false).
Proof.
  intros Hdec Hdev. unfold MessageFilter.should_keep_update_pulse_item.
  rewrite Hdec, !bind_Ok, Hdev. split.
  - intros Hflag. apply criteria_dev_first; [done|].
    exists address. split; [done|].
    cbn [FilterConfig.add_dev_address FilterConfig.with_DEV_ADDRESSES
         FilterConfig.DEV_ADDRESSES]. set_solver.
  - intros Hflag. unfold MessageFilter.criteria.
    cbn [FilterConfig.remove_dev_address FilterConfig.with_DEV_ADDRESSES
         FilterConfig.DEV_ADDRESSES FilterConfig.FILTER_BY_DEV_ADDRESS
         FilterConfig.FILTER_BY_FUNDING_WALLET
         FilterConfig.FUNDER_ADDRESSES].
    rewrite Hflag. cbn [py_in_set].
    rewrite bool_decide_false by set_solver.
    by destruct (FilterConfig.FILTER_BY_DEV_ADDRESS cfg).
Qed.

Lemma edited_dev_address_decides_witness :
  MessageFilter.should_keep_update_pulse_item
    (FilterConfig.add_dev_address config_dev_enabled "newdev")
    (short_item "newdev") = Ok true
  ∧ MessageFilter.should_keep_update_pulse_item
      (FilterConfig.remove_dev_address config_disabled "asdsadasdsa")
      (short_item "asdsadasdsa") = Ok false.
Proof.
  split.
  - by eapply (proj1 (edited_dev_address_decides config_dev_enabled "newdev"
                        (short_item "newdev") _ eq_refl eq_refl)).
  - by eapply (proj2 (edited_dev_address_decides config_disabled
                        "asdsadasdsa" (short_item "asdsadasdsa") _
                        eq_refl eq_refl)).
Defined.

(** X14. The four edits behave as set operations and touch nothing
    else: removing an address that was just added to a set that did not
    hold it restores the configuration; adding a present address and
    removing an absent one change nothing; an edit of one set leaves
    the other set and both flags as they were. *)
Theorem address_edits_are_set_edits (cfg : FilterConfig.t)
    (address : string) :
  (address ∉ FilterConfig.DEV_ADDRESSES cfg →
   FilterConfig.remove_dev_address
     (FilterConfig.add_dev_address cfg address) address = cfg
   ∧ FilterConfig.remove_dev_address cfg address = cfg)
  ∧ (address ∈ FilterConfig.DEV_ADDRESSES cfg →
     FilterConfig.add_dev_address cfg address = cfg)
  ∧ (address ∉ FilterConfig.FUNDER_ADDRESSES cfg →
     FilterConfig.remove_funder_address
       (FilterConfig.add_funder_address cfg address) address = cfg
     ∧ FilterConfig.remove_funder_address cfg address = cfg)
  ∧ (address ∈ FilterConfig.FUNDER_ADDRESSES cfg →
     FilterConfig.add_funder_address cfg address = cfg)
  ∧ FilterConfig.FUNDER_ADDRESSES (FilterConfig.add_dev_address cfg address)
    = FilterConfig.FUNDER_ADDRESSES cfg
  ∧ FilterConfig.FUNDER_ADDRESSES
      (FilterConfig.remove_dev_address cfg address)
    = FilterConfig.FUNDER_ADDRESSES cfg
  ∧ FilterConfig.DEV_ADDRESSES (FilterConfig.add_funder_address cfg address)
    = FilterConfig.DEV_ADDRESSES cfg
  ∧ FilterConfig.DEV_ADDRESSES
      (FilterConfig.remove_funder_address cfg address)
    = FilterConfig.DEV_ADDRESSES cfg.
Proof.
  destruct cfg as [host np up bin ku by_ me devs funders fd ff el vl].
  unfold FilterConfig.remove_dev_address, FilterConfig.add_dev_address,
    FilterConfig.remove_funder_address, FilterConfig.add_funder_address,
    FilterConfig.with_DEV_ADDRESSES, FilterConfig.with_FUNDER_ADDRESSES.
  cbn [FilterConfig.TARGET_HOST FilterConfig.ROOM_NEW_PAIRS
       FilterConfig.ROOM_UPDATE_PULSE FilterConfig.BINANCE_ADDRESS
       FilterConfig.KUCOIN_ADDRESS FilterConfig.BYBIT_ADDRESS
       FilterConfig.MEXC_ADDRESS FilterConfig.DEV_ADDRESSES
       FilterConfig.FUNDER_ADDRESSES FilterConfig.FILTER_BY_DEV_ADDRESS
       FilterConfig.FILTER_BY_FUNDING_WALLET FilterConfig.ENABLE_LOGGING
       FilterConfig.VERBOSE_LOGGING].
  split; [|split; [|split; [|split; [|done]]]].
  - intros Hnot. split; f_equal; set_solver.
  - intros Hin. f_equal. set_solver.
  - intros Hnot. split; f_equal; set_solver.
  - intros Hin. f_equal. set_solver.
Qed.

Lemma address_edits_are_set_edits_witness :
  FilterConfig.remove_funder_address
    (FilterConfig.add_funder_address FilterConfig.config "other") "other"
  = FilterConfig.config.
Proof.
  apply (proj1 (proj2 (proj2 (address_edits_are_set_edits
                                FilterConfig.config "other")))).
  rewrite default_funder_member. intros [H | [H | H]]; discriminate H.
Defined.

(** ** The content filters as list operations *)

Lemma comprehension_if_all_kept {A} (p : A → result bool) (l : list A) :
  Forall (λ x, p x = Ok true) l → comprehension_if p l = Ok l.
Proof.
  induction 1 as [|x l Hx Hl IH]; simpl; [done|].
  by rewrite Hx, bind_Ok, IH.
Qed.

Lemma comprehension_if_app {A} (p : A → result bool) (l1 l2 : list A) :
  comprehension_if p (l1 ++ l2)
  = (k1 ← comprehension_if p l1;
     k2 ← comprehension_if p l2;
     Ok (k1 ++ k2)%list).
Proof.
  induction l1 as [|x l1 IH]; simpl.
  - by destruct (comprehension_if p l2).
  - destruct (p x) as [b|e]; [|done]. rewrite !bind_Ok, IH.
    destruct (comprehension_if p l1) as [k1|e]; [|done]. rewrite !bind_Ok.
    destruct (comprehension_if p l2) as [k2|e]; [|done]. rewrite !bind_Ok.
    by destruct b.
Qed.

(** X15. Filtering is idempotent: running either content filter again
    on its own output returns that output unchanged. *)
Theorem content_filters_idempotent (cfg : FilterConfig.t)
    (content kept : list pyval) :
  (MessageFilter.filter_update_pulse_content cfg content = Ok kept →
   MessageFilter.filter_update_pulse_content cfg kept = Ok kept)
  ∧ (MessageFilter.filter_xhr_responses cfg content = Ok kept →
     MessageFilter.filter_xhr_responses cfg kept = Ok kept).
Proof.
  split; intros H; apply comprehension_if_kept in H as (_ & _ & _ & Hall);
    by apply comprehension_if_all_kept.
Qed.

Lemma content_filters_idempotent_witness :
  MessageFilter.filter_update_pulse_content FilterConfig.config
    [pulse_item "b" "BmFdpraQhkiDQE6SnfG5omcA1VwzqfXrwtNYBwWTymy6"]
  = Ok [pulse_item "b" "BmFdpraQhkiDQE6SnfG5omcA1VwzqfXrwtNYBwWTymy6"].
Proof.
  apply (proj1 (content_filters_idempotent FilterConfig.config pulse_items
                  [pulse_item "b"
                     "BmFdpraQhkiDQE6SnfG5omcA1VwzqfXrwtNYBwWTymy6"])).
  vm_compute. reflexivity.
Defined.

(** X16. Filtering a concatenation is filtering the parts in order:
    when both parts are filtered without an exception the result is the
    concatenation of their results, and otherwise the first exception
    met, left part first, is the exception of the whole. *)
Theorem content_filters_distribute_over_append (cfg : FilterConfig.t)
    (left_part right_part : list pyval) :
  MessageFilter.filter_update_pulse_content cfg (left_part ++ right_part)
  = (kept_left ← MessageFilter.filter_update_pulse_content cfg left_part;
     kept_right ← MessageFilter.filter_update_pulse_content cfg right_part;
     Ok (kept_left ++ kept_right)%list)
  ∧ MessageFilter.filter_xhr_responses cfg (left_part ++ right_part)
    = (kept_left ← MessageFilter.filter_xhr_responses cfg left_part;
       kept_right ← MessageFilter.filter_xhr_responses cfg right_part;
       Ok (kept_left ++ kept_right)%list).
Proof. split; apply comprehension_if_app. Qed.

(** X17. One item on which the evaluator raises makes the whole filter
    raise: no partial result is produced, whatever the other items
    are. *)
Theorem content_filter_raises_on_one_bad_item (cfg : FilterConfig.t)
    (content : list pyval) (item : pyval) :
  item ∈ content →
  (raises (MessageFilter.should_keep_update_pulse_item cfg item) →
   raises (MessageFilter.filter_update_pulse_content cfg content))
  ∧ (raises (MessageFilter.should_keep_xhr_response cfg item) →
     raises (MessageFilter.filter_xhr_responses cfg content)).
Proof.
  intros Hin.
  assert (∀ p : pyval → result bool,
            raises (p item) → raises (comprehension_if p content)) as Hgen.
  { intros p [e He].
    destruct (comprehension_if p content) as [kept|e'] eqn:Hk;
      [|by exists e'].
    assert (returns (comprehension_if p content)) as Hret by by exists kept.
    apply comprehension_if_returns in Hret.
    rewrite Forall_forall in Hret. destruct (Hret item Hin) as [b Hb].
    congruence. }
  split; apply Hgen.
Qed.

Lemma content_filter_raises_on_one_bad_item_witness :
  raises (MessageFilter.filter_update_pulse_content FilterConfig.config
            [pulse_item "a" "unknown"; PInt 7]).
Proof.
  apply (proj1 (content_filter_raises_on_one_bad_item FilterConfig.config
                  [pulse_item "a" "unknown"; PInt 7] (PInt 7)
                  ltac:(by apply list_elem_of_In; right; left))).
  by exists TypeError.
Defined.

(** ** What the hooks leave alone *)

Section Passthrough.

Variable decode_utf8 : string → option string.
Variable encode_utf8 : string → string.
Variable b64encode : string → string.
Variable json_loads : string → result pyval.
Variable json_loads_bytes : string → result pyval.
Variable json_dumps : pyval → string.
Variable cfg : FilterConfig.t.

(** X18. The update-pulse filter touches the message and the counters
    only when the text parses to an object that has a list under
    [content] and the evaluator returns on every item of it. A parse
    error, a value that is not an object, a missing or non-list
    [content], or an exception on one item all leave both as they
    were. *)
Theorem update_pulse_filter_passthrough (stats : FilterStats.t)
    (message : WebSocketMessage.t) (text : string) :
  ¬ (∃ d items kept,
       json_loads text = Ok (PDict d)
       ∧ dict_lookup d "content" = Some (PList items)
       ∧ MessageFilter.filter_update_pulse_content cfg items = Ok kept) →
  AxiomTradeFilter._filter_update_pulse_message encode_utf8 json_loads
    json_dumps cfg stats message text = (stats, message).
Proof.
  intros Hnot.
  unfold AxiomTradeFilter._filter_update_pulse_message,
    AxiomTradeFilter._filter_update_pulse_body.
  destruct (json_loads text) as [data|e]; [|done]. rewrite bind_Ok.
  destruct (py_contains data "content") as [[]|e]; [|done|done].
  rewrite bind_Ok. cbn [negb].
  destruct (py_getitem_str data "content") as [content|e] eqn:Hget; [|done].
  rewrite bind_Ok. destruct content as [| | | | |items|]; try done.
  destruct (MessageFilter.filter_update_pulse_content cfg items)
    as [kept|e] eqn:Hkept; [|done].
  destruct Hnot. destruct data as [| | | | | |d]; try discriminate Hget.
  exists d, items, kept. split; [done|]. split; [|done].
  cbn [py_getitem_str] in Hget.
  destruct (dict_lookup d "content"); [by injection Hget as -> | done].
Qed.

(** X19. The response hook changes nothing unless the request is
    [POST /pulse] to the target host, the flow has a response whose
    body parses, and the parsed value is a list that filters without an
    exception or an object on which the evaluator returns. *)
Theorem response_hook_passthrough (stats : FilterStats.t)
    (flow : HTTPFlow.t) :
  ¬ (HTTPFlow.path flow = "/pulse"
     ∧ HTTPFlow.method flow = "POST"
     ∧ AxiomTradeFilter._is_target_host cfg flow = true
     ∧ ∃ raw content,
         HTTPFlow.response flow = Some raw
         ∧ json_loads_bytes raw = Ok content
         ∧ ((∃ items kept,
               content = PList items
               ∧ MessageFilter.filter_xhr_responses cfg items = Ok kept)
            ∨ (∃ d keep,
                 content = PDict d
                 ∧ MessageFilter.should_keep_xhr_response cfg content
                   = Ok keep))) →
  AxiomTradeFilter.response encode_utf8 json_loads_bytes json_dumps cfg
    stats flow = (stats, flow).
Proof.
  intros Hnot. unfold AxiomTradeFilter.response.
  destruct (String.eqb (HTTPFlow.path flow) "/pulse") eqn:Hpath; [|done].
  destruct (String.eqb (HTTPFlow.method flow) "POST") eqn:Hmethod; [|done].
  cbn [negb orb].
  destruct (AxiomTradeFilter._is_target_host cfg flow) eqn:Hhost; [|done].
  cbn [negb]. unfold AxiomTradeFilter.response_body.
  destruct (HTTPFlow.response flow) as [raw|] eqn:Hresp; [|done].
  destruct (json_loads_bytes raw) as [content|e] eqn:Hloads; [|done].
  rewrite bind_Ok.
  apply String.eqb_eq in Hpath, Hmethod.
  destruct content as [| | | | |items|d]; try done.
  - destruct (MessageFilter.filter_xhr_responses cfg items)
      as [kept|e] eqn:Hkept; [|done].
    destruct Hnot. repeat (split; [done|]).
    exists raw, (PList items). repeat (split; [done|]).
    left. by exists items, kept.
  - destruct (MessageFilter.should_keep_xhr_response cfg (PDict d))
      as [keep|e] eqn:Hkeep; [|done].
    destruct Hnot. repeat (split; [done|]).
    exists raw, (PDict d). repeat (split; [done|]).
    right. by exists d, keep.
Qed.

(** X20. The WebSocket hook changes nothing unless the flow is of the
    target host, has at least one message, the last message comes from
    the server and its text is classified as one of the two rooms. *)
Theorem websocket_hook_passthrough (stats : FilterStats.t)
    (flow : HTTPFlow.t) :
  ¬ (AxiomTradeFilter._is_target_host cfg flow = true
     ∧ ∃ messages message,
         HTTPFlow.websocket flow = Some messages
         ∧ last messages = Some message
         ∧ WebSocketMessage.from_client message = false
         ∧ is_Some
             (AxiomTradeFilter._get_room_name cfg
                (AxiomTradeFilter._decode_message_content decode_utf8
                   b64encode (WebSocketMessage.content message)))) →
  AxiomTradeFilter.websocket_message decode_utf8 encode_utf8 b64encode
    json_loads json_dumps cfg stats flow = (stats, flow).
Proof.
  intros Hnot. unfold AxiomTradeFilter.websocket_message.
  destruct (AxiomTradeFilter._is_target_host cfg flow) eqn:Hhost; [|done].
  cbn [negb].
  destruct (HTTPFlow.websocket flow) as [messages|] eqn:Hws; [|done].
  destruct (last messages) as [message|] eqn:Hlast; [|done].
  destruct (WebSocketMessage.from_client message) eqn:Hfrom; [done|].
  destruct (AxiomTradeFilter._get_room_name cfg _) as [room|] eqn:Hroom.
  - destruct Hnot. split; [done|]. exists messages, message.
    repeat (split; [done|]). rewrite Hroom. by exists room.
  - by rewrite !bool_decide_false by done.
Qed.

(** X21. A list response is always answered with a list: the body
    becomes the encoded [json.dumps] of the kept items, the empty list
    included, the XHR counters grow by the two lengths, and nothing
    else in the flow changes. *)
Theorem list_response_rewritten_to_kept_items (stats : FilterStats.t)
    (flow : HTTPFlow.t) (raw : string) (items kept : list pyval) :
  HTTPFlow.path flow = "/pulse" →
  HTTPFlow.method flow = "POST" →
  AxiomTradeFilter._is_target_host cfg flow = true →
  HTTPFlow.response flow = Some raw →
  json_loads_bytes raw = Ok (PList items) →
  MessageFilter.filter_xhr_responses cfg items = Ok kept →
  AxiomTradeFilter.response encode_utf8 json_loads_bytes json_dumps cfg
    stats flow
  = (FilterStats.record_xhr stats (Z.of_nat (length items))
       (Z.of_nat (length kept)),
     HTTPFlow.with_response flow (encode_utf8 (json_dumps (PList kept)))).
Proof.
  intros Hpath Hmethod Hhost Hresp Hloads Hkept.
  unfold AxiomTradeFilter.response, AxiomTradeFilter.response_body.
  by rewrite Hpath, Hmethod, Hhost, Hresp, Hloads, bind_Ok, Hkept.
Qed.

End Passthrough.

Lemma update_pulse_filter_passthrough_witness :
  AxiomTradeFilter._filter_update_pulse_message sample_encode_utf8
    sample_json_loads sample_json_dumps FilterConfig.config FilterStats.init
    (text_frame "not json") "not json"
  = (FilterStats.init, text_frame "not json").
Proof.
  apply update_pulse_filter_passthrough.
  intros (d & items & kept & Hloads & _). discriminate Hloads.
Defined.

Lemma response_hook_passthrough_witness :
  let flow :=
    HTTPFlow.Build None "api.axiom.trade" "/pulse" "GET" (Some "{}") None in
  AxiomTradeFilter.response sample_encode_utf8 sample_json_loads
    sample_json_dumps FilterConfig.config FilterStats.init flow
  = (FilterStats.init, flow).
Proof.
  intros flow. apply response_hook_passthrough.
  intros (_ & Hmethod & _). discriminate Hmethod.
Defined.

Lemma websocket_hook_passthrough_witness :
  let flow :=
    HTTPFlow.Build None "example.org" "/" "GET" None
      (Some [text_frame (sample_json_dumps pulse_envelope)]) in
  AxiomTradeFilter.websocket_message sample_decode_utf8 sample_encode_utf8
    sample_b64encode sample_json_loads sample_json_dumps FilterConfig.config
    FilterStats.init flow
  = (FilterStats.init, flow).
Proof.
  intros flow. apply websocket_hook_passthrough.
  intros (Hhost & _). discriminate Hhost.
Defined.

Lemma list_response_rewritten_to_kept_items_witness :
  let flow := pulse_flow (sample_json_dumps (PList [xhr_item "a" "unknown"])) in
  let loads := λ raw : string,
    if String.eqb raw (sample_json_dumps (PList [xhr_item "a" "unknown"]))
    then Ok (PList [xhr_item "a" "unknown"]) else Raise JSONDecodeError in
  AxiomTradeFilter.response sample_encode_utf8 loads sample_json_dumps
    FilterConfig.config FilterStats.init flow
  = (FilterStats.record_xhr FilterStats.init 1 0,
     HTTPFlow.with_response flow "[]").
Proof.
  intros flow loads.
  by apply (list_response_rewritten_to_kept_items sample_encode_utf8 loads
              sample_json_dumps FilterConfig.config FilterStats.init flow
              (sample_json_dumps (PList [xhr_item "a" "unknown"]))
              [xhr_item "a" "unknown"] []).
Defined.

(** ** The frame of the WebSocket hook *)

Lemma replace_last_facts {A} (l : list A) (x y : A) :
  last l = Some x →
  length (replace_last l y) = length l
  ∧ removelast (replace_last l y) = removelast l
  ∧ last (replace_last l y) = Some y.
Proof.
  intros (l' & ->)%last_Some. unfold replace_last.
  rewrite !removelast_last, !length_app. split; [done|].
  split; [done | apply last_snoc].
Qed.

Section Frame.

Variable decode_utf8 : string → option string.
Variable encode_utf8 : string → string.
Variable b64encode : string → string.
Variable json_loads : string → result pyval.
Variable json_loads_bytes : string → result pyval.
Variable json_dumps : pyval → string.
Variable cfg : FilterConfig.t.

Lemma touched_refl (message : WebSocketMessage.t) : touched message message.
Proof. by repeat split. Qed.

Lemma touched_drop (message message' : WebSocketMessage.t) :
  touched message message' → touched message (WebSocketMessage.drop message').
Proof. intros (H1 & H2 & H3 & H4). by repeat split. Qed.

Lemma filter_update_pulse_message_touched (stats : FilterStats.t)
    (message : WebSocketMessage.t) (text : string) :
  touched message
    (AxiomTradeFilter._filter_update_pulse_message encode_utf8 json_loads
       json_dumps cfg stats message text).2.
Proof.
  unfold AxiomTradeFilter._filter_update_pulse_message,
    AxiomTradeFilter._filter_update_pulse_body.
  destruct (json_loads text) as [data|e]; [|apply touched_refl].
  rewrite bind_Ok.
  destruct (py_contains data "content") as [[]|e];
    [|apply touched_refl|apply touched_refl].
  rewrite bind_Ok. cbn [negb].
  destruct (py_getitem_str data "content") as [content|e];
    [|apply touched_refl].
  rewrite bind_Ok.
  destruct content as [| | | | |items|]; try apply touched_refl.
  destruct (MessageFilter.filter_update_pulse_content cfg items)
    as [kept|e]; [|apply touched_refl].
  rewrite bind_Ok.
  destruct (length kept =? 0); [apply touched_drop, touched_refl|].
  destruct (py_setitem_str data "content" (PList kept)) as [data'|e];
    [|apply touched_refl].
  rewrite bind_Ok.
  destruct (WebSocketMessage.is_text message) eqn:Htext;
    [|apply touched_refl].
  cbn [snd]. unfold touched. cbn. by rewrite Htext.
Qed.

Lemma websocket_message_shape (stats : FilterStats.t) (flow : HTTPFlow.t) :
  let flow' :=
    (AxiomTradeFilter.websocket_message decode_utf8 encode_utf8 b64encode
       json_loads json_dumps cfg stats flow).2 in
  flow' = flow
  ∨ ∃ messages message message',
      HTTPFlow.websocket flow = Some messages
      ∧ last messages = Some message
      ∧ flow' = HTTPFlow.with_messages flow (replace_last messages message')
      ∧ touched message message'.
Proof.
  unfold AxiomTradeFilter.websocket_message.
  destruct (negb _); [by left|].
  destruct (HTTPFlow.websocket flow) as [messages|] eqn:Hws; [|by left].
  destruct (last messages) as [message|] eqn:Hlast; [|by left].
  destruct (WebSocketMessage.from_client message); [by left|].
  set (text := AxiomTradeFilter._decode_message_content _ _ _).
  case_bool_decide as Hpulse.
  - pose proof (filter_update_pulse_message_touched stats message text) as Ht.
    destruct (AxiomTradeFilter._filter_update_pulse_message _ _ _ _ _ _ _)
      as [stats' message'].
    right. by exists messages, message, message'.
  - case_bool_decide as Hpairs; [|by left].
    destruct (filter_new_pairs_message_keeps json_loads cfg stats message text)
      as (stats' & -> & _).
    right. exists messages, message, (WebSocketMessage.drop message).
    repeat split; try done.
Qed.

(** X22. The WebSocket hook can change the last message of the flow
    and nothing else: the request, the response and the connection are
    as before, the number of messages and every message but the last
    are as before, and of the last message the direction and the frame
    type are kept, a set drop flag stays set, and the payload of a
    frame that is not a text frame is never rewritten. *)
Theorem websocket_hook_touches_last_message_only (stats : FilterStats.t)
    (flow : HTTPFlow.t) :
  let flow' :=
    (AxiomTradeFilter.websocket_message decode_utf8 encode_utf8 b64encode
       json_loads json_dumps cfg stats flow).2 in
  HTTPFlow.server_conn flow' = HTTPFlow.server_conn flow
  ∧ HTTPFlow.pretty_host flow' = HTTPFlow.pretty_host flow
  ∧ HTTPFlow.path flow' = HTTPFlow.path flow
  ∧ HTTPFlow.method flow' = HTTPFlow.method flow
  ∧ HTTPFlow.response flow' = HTTPFlow.response flow
  ∧ (HTTPFlow.websocket flow = None → HTTPFlow.websocket flow' = None)
  ∧ (∀ messages,
       HTTPFlow.websocket flow = Some messages →
       ∃ messages',
         HTTPFlow.websocket flow' = Some messages'
         ∧ length messages' = length messages
         ∧ removelast messages' = removelast messages
         ∧ ∀ message,
             last messages = Some message →
             ∃ message',
               last messages' = Some message'
               ∧ touched message message').
Proof.
  intros flow'.
  destruct (websocket_message_shape stats flow)
    as [Hsame | (ms & m & m' & Hws & Hlast & Hflow & Htouched)];
    fold flow' in Hsame || fold flow' in Hflow.
  - rewrite Hsame. repeat (split; [done|]).
    intros messages Hws. exists messages. repeat (split; [done|]).
    intros message Hlast. exists message. split; [done | apply touched_refl].
  - rewrite Hflow.
    destruct (replace_last_facts ms m m' Hlast) as (Hlen & Hinit & Hlast').
    repeat (split; [done|]). split; [by rewrite Hws|].
    intros messages Hws'. rewrite Hws in Hws'. injection Hws' as <-.
    exists (replace_last ms m'). repeat (split; [done|]).
    intros message Hm. rewrite Hlast in Hm. injection Hm as <-.
    by exists m'.
Qed.

(** X23. Started on fresh counters, the addon keeps
    [0 <= kept <= total] in every category after any sequence of hook
    invocations, on any flows and with any payloads. *)
Theorem counters_consistent_along_any_run (calls : list hook_call) :
  stats_invariant
    (run_hooks decode_utf8 encode_utf8 b64encode json_loads json_loads_bytes
       json_dumps cfg FilterStats.init calls).
Proof.
  unfold run_hooks. generalize init_invariant.
  generalize FilterStats.init as stats. revert calls.
  induction calls as [|call calls IH]; intros stats Hinv; [done|].
  cbn [foldl]. apply IH.
  destruct (hooks_preserve_stats_invariant decode_utf8 encode_utf8 b64encode
              json_loads json_loads_bytes json_dumps cfg stats
              match call with OnWebsocketMessage f | OnResponse f => f end
              Hinv) as [Hws Hresp].
  by destruct call.
Qed.

End Frame.

Lemma websocket_hook_touches_last_message_only_witness :
  let flow :=
    websocket_flow (text_frame (sample_json_dumps pulse_envelope_unmatched)) in
  let flow' :=
    (AxiomTradeFilter.websocket_message sample_decode_utf8 sample_encode_utf8
       sample_b64encode sample_json_loads sample_json_dumps
       FilterConfig.config FilterStats.init flow).2 in
  ∃ messages',
    HTTPFlow.websocket flow' = Some messages'
    ∧ length messages' = 2
    ∧ removelast messages' = [text_frame "ping"].
Proof.
  intros flow flow'.
  destruct (websocket_hook_touches_last_message_only sample_decode_utf8
              sample_encode_utf8 sample_b64encode sample_json_loads
              sample_json_dumps FilterConfig.config FilterStats.init flow)
    as (_ & _ & _ & _ & _ & _ & Hms).
  destruct (Hms _ eq_refl) as (messages' & Hws & Hlen & Hinit & _).
  exists messages'. split; [exact Hws|]. split; [exact Hlen | exact Hinit].
Defined.

(** ** Host matching and classification *)

(** X24. The host test is a substring test on two names: a flow is of
    the target host exactly when the configured host occurs somewhere
    in the server address of the connection (taken as the empty string
    when there is no connection or no address) or somewhere in the
    requested host name. *)
Theorem target_host_is_substring_match (cfg : FilterConfig.t)
    (flow : HTTPFlow.t) :
  let address :=
    match HTTPFlow.server_conn flow with
    | Some (Some host) => host
    | _ => ""
    end in
  AxiomTradeFilter._is_target_host cfg flow = true
  ↔ occurs (FilterConfig.TARGET_HOST cfg) address
    ∨ occurs (FilterConfig.TARGET_HOST cfg) (HTTPFlow.pretty_host flow).
Proof.
  intros address. unfold AxiomTradeFilter._is_target_host.
  rewrite orb_true_iff, !str_contains_spec. subst address.
  by destruct (HTTPFlow.server_conn flow) as [[host|]|].
Qed.

Lemma target_host_is_substring_match_witness :
  AxiomTradeFilter._is_target_host FilterConfig.config
    (HTTPFlow.Build None "not-axiom.trade.example.org" "/" "GET" None None)
  = true.
Proof.
  apply target_host_is_substring_match. right.
  by exists "not-", ".example.org".
Defined.

Lemma str_take_lower (n : nat) (s : string) :
  str_take n (str_lower s) = str_lower (str_take n s).
Proof.
  revert s. induction n as [|n IH]; intros [|c s]; simpl; try done.
  by rewrite IH.
Qed.

Lemma str_take_app_long (n : nat) (s rest : string) :
  n ≤ String.length s → str_take n (s +:+ rest) = str_take n s.
Proof.
  revert s. induction n as [|n IH]; intros [|c s] Hlen; simpl in *;
    try done; try lia.
  by rewrite IH by lia.
Qed.

(** X25. Classification looks at nothing but the first 50 characters,
    and at those without regard to case: two texts whose first 50
    characters are equal after lower-casing are classified alike, and
    whatever follows a text of at least 50 characters does not change
    its classification. *)
Theorem classification_reads_lowered_first_50 (cfg : FilterConfig.t)
    (text text' : string) :
  (str_lower (str_take 50 text) = str_lower (str_take 50 text') →
   AxiomTradeFilter._get_room_name cfg text
   = AxiomTradeFilter._get_room_name cfg text')
  ∧ (50 ≤ String.length text →
     AxiomTradeFilter._get_room_name cfg (text +:+ text')
     = AxiomTradeFilter._get_room_name cfg text).
Proof.
  unfold AxiomTradeFilter._get_room_name. rewrite !str_take_lower. split.
  - by intros ->.
  - intros Hlen. by rewrite str_take_app_long.
Qed.

Lemma classification_reads_lowered_first_50_witness :
  AxiomTradeFilter._get_room_name FilterConfig.config "join NEW_PAIRS now"
  = AxiomTradeFilter._get_room_name FilterConfig.config "JOIN new_pairs NOW"
  ∧ AxiomTradeFilter._get_room_name FilterConfig.config
      ("01234567890123456789012345678901234567890123456789"
       +:+ " new_pairs")
    = AxiomTradeFilter._get_room_name FilterConfig.config
        "01234567890123456789012345678901234567890123456789".
Proof.
  split.
  - by apply (proj1 (classification_reads_lowered_first_50 FilterConfig.config
                       "join NEW_PAIRS now" "JOIN new_pairs NOW")).
  - apply (proj2 (classification_reads_lowered_first_50 FilterConfig.config
                    "01234567890123456789012345678901234567890123456789"
                    " new_pairs")).
    simpl. lia.
Defined.

(** ** Payloads that are not UTF-8 *)

Lemma append_assoc3 (a b c : string) : (a +:+ b) +:+ c = a +:+ b +:+ c.
Proof. induction a as [|x a IH]; [done|]. by rewrite !append_cons, IH. Qed.

Lemma occurs_trans (a b c : string) : occurs a b → occurs b c → occurs a c.
Proof.
  intros (p1 & q1 & ->) (p2 & q2 & ->).
  exists (p2 +:+ p1), (q1 +:+ q2). by rewrite !append_assoc3.
Qed.

Lemma occurs_app_l (x a b : string) : occurs x a → occurs x (a +:+ b).
Proof.
  intros (pre & post & ->). exists pre, (post +:+ b).
  by rewrite !append_assoc3.
Qed.

Lemma occurs_char_cons (c a : ascii) (t : string) :
  occurs (String c "") (String a t) ↔ a = c ∨ occurs (String c "") t.
Proof.
  split.
  - intros ([|d pre] & post & H).
    + rewrite append_nil, append_cons in H. injection H as -> _. by left.
    + rewrite append_cons in H. injection H as _ ->. right. by exists pre, post.
  - intros [-> | (pre & post & ->)].
    + by exists "", t.
    + by exists (String a pre), post.
Qed.

Lemma occurs_char_nil (c : ascii) : ¬ occurs (String c "") "".
Proof. intros ([|d pre] & post & H); discriminate H. Qed.

Lemma char_lower_underscore (c : ascii) :
  char_lower c = "_"%char → c = "_"%char.
Proof.
  destruct c as [[] [] [] [] [] [] [] []]; vm_compute; intros H;
    first [reflexivity | discriminate H].
Qed.

Lemma occurs_underscore_lower (s : string) :
  occurs "_" (str_lower s) → occurs "_" s.
Proof.
  induction s as [|a s IH]; [done|]. cbn [str_lower].
  rewrite !occurs_char_cons. intros [H | H].
  - left. by apply char_lower_underscore.
  - right. by apply IH.
Qed.

Lemma occurs_underscore_take (n : nat) (s : string) :
  occurs "_" (str_take n s) → occurs "_" s.
Proof.
  intros H. destruct (str_take_prefix n s) as [rest Hs]. rewrite Hs.
  by apply occurs_app_l.
Qed.

Section Base64.

Variable decode_utf8 : string → option string.
Variable encode_utf8 : string → string.
Variable b64encode : string → string.
Variable json_loads : string → result pyval.
Variable json_dumps : pyval → string.
Variable cfg : FilterConfig.t.

(** X26. With the default room names, a message whose bytes are not
    valid UTF-8 is never classified and so never filtered: its text is
    ["base64:"] followed by base64 characters, none of which is the
    underscore both room names contain. The hook leaves the counters
    and the flow as they were. *)
Theorem undecodable_message_left_unmodified (stats : FilterStats.t)
    (flow : HTTPFlow.t) (messages : list WebSocketMessage.t)
    (message : WebSocketMessage.t) :
  FilterConfig.ROOM_NEW_PAIRS cfg = "new_pairs" →
  FilterConfig.ROOM_UPDATE_PULSE cfg = "update_pulse_v2" →
  (∀ raw, ¬ occurs "_" (b64encode raw)) →
  HTTPFlow.websocket flow = Some messages →
  last messages = Some message →
  decode_utf8 (WebSocketMessage.content message) = None →
  AxiomTradeFilter._get_room_name cfg
    (AxiomTradeFilter._decode_message_content decode_utf8 b64encode
       (WebSocketMessage.content message)) = None
  ∧ AxiomTradeFilter.websocket_message decode_utf8 encode_utf8 b64encode
      json_loads json_dumps cfg stats flow = (stats, flow).
Proof.
  intros Hnp Hup Hb64 Hws Hlast Hdec.
  assert (AxiomTradeFilter._get_room_name cfg
            (AxiomTradeFilter._decode_message_content decode_utf8 b64encode
               (WebSocketMessage.content message)) = None) as Hroom.
  { unfold AxiomTradeFilter._decode_message_content. rewrite Hdec.
    set (raw := WebSocketMessage.content message).
    assert (∀ tag, occurs "_" tag →
              ¬ occurs tag (str_take 50 (str_lower ("base64:" +:+ b64encode raw))))
      as Hno.
    { intros tag Htag Hocc.
      pose proof (occurs_trans _ _ _ Htag Hocc) as H.
      apply occurs_underscore_take, occurs_underscore_lower in H.
      change ("base64:" +:+ b64encode raw)
        with (String "b" (String "a" (String "s" (String "e" (String "6"
               (String "4" (String ":" (b64encode raw)))))))) in H.
      repeat (apply occurs_char_cons in H as [H | H]; [discriminate H|]).
      by apply (Hb64 raw). }
    apply get_room_name_cases; rewrite ?Hnp, ?Hup; apply Hno.
    - by exists "new", "pairs".
    - by exists "update", "pulse_v2". }
  split; [done|]. by eapply websocket_message_unclassified.
Qed.

End Base64.

Lemma undecodable_message_left_unmodified_witness :
  let flow := websocket_flow (binary_frame "new_pairs") in
  AxiomTradeFilter.websocket_message (λ _, None) sample_encode_utf8
    (λ _, "bmV3X3BhaXJz") sample_json_loads sample_json_dumps
    FilterConfig.config FilterStats.init flow
  = (FilterStats.init, flow).
Proof.
  intros flow.
  refine (proj2 (undecodable_message_left_unmodified (λ _, None)
                   sample_encode_utf8 (λ _, "bmV3X3BhaXJz") sample_json_loads
                   sample_json_dumps FilterConfig.config FilterStats.init
                   flow _ (binary_frame "new_pairs") eq_refl eq_refl _
                   eq_refl eq_refl eq_refl)).
  intros _ Hocc. apply str_contains_spec in Hocc. discriminate Hocc.
Defined.
